(** * Card issuance service: the lifecycle engine of [backend/app/service.py]

    The development embeds the application, batch and card operations of
    the service layer, together with the numbering helper of
    [backend/app/utils.py], over an explicit model of the SQLAlchemy
    session they run in, and proves the properties the specification
    states about them. *)

From Stdlib Require Import List String Ascii ZArith NArith Lia Bool.
Import ListNotations.

Open Scope string_scope.
Open Scope Z_scope.

(* ================================================================= *)
(** * Text rendering of numbers and identifiers *)

Definition digit_char (d : N) : ascii := ascii_of_N (48 + d).

(** Decimal digits of [n], most significant first; [fuel] bounds the
    number of digits produced. *)
Fixpoint digits_of (fuel : nat) (n : N) : string :=
  match fuel with
  | O => EmptyString
  | S fuel' =>
      if (n <? 10)%N then String (digit_char n) EmptyString
      else digits_of fuel' (n / 10)%N
             ++ String (digit_char (n mod 10)%N) EmptyString
  end.

(** A number has at most as many decimal digits as binary ones. *)
Definition str_N (n : N) : string :=
  digits_of (S (N.to_nat (N.log2 n))) n.

(** [str(z)] of a Python [int]. *)
Definition str_int (z : Z) : string :=
  if z <? 0 then String "-" (str_N (Z.abs_N z)) else str_N (Z.abs_N z).

Fixpoint zeros (k : nat) : string :=
  match k with
  | O => EmptyString
  | S k' => String "0" (zeros k')
  end.

(** [format(n, "0{width}d")]: the zero flag fills between the sign and
    the digits up to [width] characters and never truncates. *)
Definition format_0d (n : Z) (width : nat) : string :=
  let digits := str_N (Z.abs_N n) in
  if n <? 0 then String "-" (zeros (width - 1 - length digits) ++ digits)
  else zeros (width - length digits) ++ digits.

(** [utils.make_no]: [f"{prefix}-{year}-{n:0{width}d}"]; every caller
    passes the default width 6 explicitly. *)
Definition make_no (prefix : string) (year n : Z) (width : nat) : string :=
  prefix ++ "-" ++ str_int year ++ "-" ++ format_0d n width.

(** Reading a run of decimal digits back, as [int(s)] does. *)
Definition digit_value (c : ascii) : option N :=
  let k := N_of_ascii c in
  if ((48 <=? k) && (k <=? 57))%N then Some (k - 48)%N else None.

Fixpoint read_digits (acc : N) (s : string) : option N :=
  match s with
  | EmptyString => Some acc
  | String c s' =>
      match digit_value c with
      | Some d => read_digits (acc * 10 + d)%N s'
      | None => None
      end
  end.

(** Primary keys of the domain tables are UUIDs; a UUID is its 128-bit
    integer value ([UUID.int]). *)
Definition uuid : Type := N.
Bind Scope N_scope with uuid.

Definition hex_char (d : N) : ascii :=
  if (d <? 10)%N then ascii_of_N (48 + d) else ascii_of_N (87 + d).

(** The [k] lowest hexadecimal digits of [u], most significant first. *)
Fixpoint hex_fixed (k : nat) (u : N) : string :=
  match k with
  | O => EmptyString
  | S k' =>
      String (hex_char (N.shiftr u (4 * N.of_nat k') mod 16)%N) (hex_fixed k' u)
  end.

(** [str(u)] of a [uuid.UUID]: 8-4-4-4-12 lower-case hexadecimal digits. *)
Definition uuid_str (u : uuid) : string :=
  hex_fixed 8 (N.shiftr u 96) ++ "-" ++ hex_fixed 4 (N.shiftr u 80) ++ "-"
  ++ hex_fixed 4 (N.shiftr u 64) ++ "-" ++ hex_fixed 4 (N.shiftr u 48) ++ "-"
  ++ hex_fixed 12 u.

(** Python truthiness of the optional values the service tests with
    [if not x] and [x or y]. *)
Definition truthy_str (s : option string) : bool :=
  match s with
  | Some (String _ _) => true
  | _ => false
  end.

Definition truthy_int (z : option Z) : bool :=
  match z with
  | Some v => negb (v =? 0)
  | None => false
  end.

(** Membership in a set literal of strings. *)
Definition in_set (x : string) (s : list string) : bool :=
  existsb (String.eqb x) s.

(* ================================================================= *)
(** * Data model *)

Module Datetime.
Record t : Type := mk {
  year : Z;
  month : Z;
  day : Z;
  hour : Z;
  minute : Z;
  second : Z;
  microsecond : Z
}.
End Datetime.

Module Date.
Record t : Type := mk {
  year : Z;
  month : Z;
  day : Z
}.
End Date.

Definition datetime : Type := Datetime.t.
Definition date : Type := Date.t.

(** A JSON object column, as its key/value pairs. *)
Definition json : Type := list (string * string).

(** Row of table [ref_status] (class [RefStatus] of models.py). *)
Module RefStatus.
Record t : Type := mk {
  id : Z;
  entity_type : string;
  code : string;
  name : string;
  sort_order : Z
}.
End RefStatus.

(** Row of table [card_application] (class [CardApplication] of models.py). *)
Module CardApplication.
Record t : Type := mk {
  id : uuid;
  application_no : string;
  client_id : uuid;
  product_id : Z;
  tariff_id : Z;
  channel_id : Z;
  branch_id : Z;
  delivery_method_id : Z;
  delivery_address : option string;
  delivery_comment : option string;
  embossing_name : option string;
  is_salary_project : bool;
  requested_at : datetime;
  requested_delivery_date : option date;
  planned_issue_date : option date;
  status_id : Z;
  reject_reason_id : option Z;
  kyc_score : option Z;
  kyc_result : option string;
  kyc_notes : option string;
  decision_at : option datetime;
  decision_by : option string;
  priority : string;
  limits_requested_json : json;
  consent_personal_data : bool;
  consent_marketing : bool;
  comment : option string;
  created_at : datetime;
  updated_at : datetime
}.
Definition set_client_id (v : uuid) (r : t) : t :=
  mk (id r) (application_no r) v (product_id r) (tariff_id r) (channel_id r) (branch_id r) (delivery_method_id r) (delivery_address r) (delivery_comment r) (embossing_name r) (is_salary_project r) (requested_at r) (requested_delivery_date r) (planned_issue_date r) (status_id r) (reject_reason_id r) (kyc_score r) (kyc_result r) (kyc_notes r) (decision_at r) (decision_by r) (priority r) (limits_requested_json r) (consent_personal_data r) (consent_marketing r) (comment r) (created_at r) (updated_at r).
Definition set_product_id (v : Z) (r : t) : t :=
  mk (id r) (application_no r) (client_id r) v (tariff_id r) (channel_id r) (branch_id r) (delivery_method_id r) (delivery_address r) (delivery_comment r) (embossing_name r) (is_salary_project r) (requested_at r) (requested_delivery_date r) (planned_issue_date r) (status_id r) (reject_reason_id r) (kyc_score r) (kyc_result r) (kyc_notes r) (decision_at r) (decision_by r) (priority r) (limits_requested_json r) (consent_personal_data r) (consent_marketing r) (comment r) (created_at r) (updated_at r).
Definition set_tariff_id (v : Z) (r : t) : t :=
  mk (id r) (application_no r) (client_id r) (product_id r) v (channel_id r) (branch_id r) (delivery_method_id r) (delivery_address r) (delivery_comment r) (embossing_name r) (is_salary_project r) (requested_at r) (requested_delivery_date r) (planned_issue_date r) (status_id r) (reject_reason_id r) (kyc_score r) (kyc_result r) (kyc_notes r) (decision_at r) (decision_by r) (priority r) (limits_requested_json r) (consent_personal_data r) (consent_marketing r) (comment r) (created_at r) (updated_at r).
Definition set_channel_id (v : Z) (r : t) : t :=
  mk (id r) (application_no r) (client_id r) (product_id r) (tariff_id r) v (branch_id r) (delivery_method_id r) (delivery_address r) (delivery_comment r) (embossing_name r) (is_salary_project r) (requested_at r) (requested_delivery_date r) (planned_issue_date r) (status_id r) (reject_reason_id r) (kyc_score r) (kyc_result r) (kyc_notes r) (decision_at r) (decision_by r) (priority r) (limits_requested_json r) (consent_personal_data r) (consent_marketing r) (comment r) (created_at r) (updated_at r).
Definition set_branch_id (v : Z) (r : t) : t :=
  mk (id r) (application_no r) (client_id r) (product_id r) (tariff_id r) (channel_id r) v (delivery_method_id r) (delivery_address r) (delivery_comment r) (embossing_name r) (is_salary_project r) (requested_at r) (requested_delivery_date r) (planned_issue_date r) (status_id r) (reject_reason_id r) (kyc_score r) (kyc_result r) (kyc_notes r) (decision_at r) (decision_by r) (priority r) (limits_requested_json r) (consent_personal_data r) (consent_marketing r) (comment r) (created_at r) (updated_at r).
Definition set_delivery_method_id (v : Z) (r : t) : t :=
  mk (id r) (application_no r) (client_id r) (product_id r) (tariff_id r) (channel_id r) (branch_id r) v (delivery_address r) (delivery_comment r) (embossing_name r) (is_salary_project r) (requested_at r) (requested_delivery_date r) (planned_issue_date r) (status_id r) (reject_reason_id r) (kyc_score r) (kyc_result r) (kyc_notes r) (decision_at r) (decision_by r) (priority r) (limits_requested_json r) (consent_personal_data r) (consent_marketing r) (comment r) (created_at r) (updated_at r).
Definition set_delivery_address (v : option string) (r : t) : t :=
  mk (id r) (application_no r) (client_id r) (product_id r) (tariff_id r) (channel_id r) (branch_id r) (delivery_method_id r) v (delivery_comment r) (embossing_name r) (is_salary_project r) (requested_at r) (requested_delivery_date r) (planned_issue_date r) (status_id r) (reject_reason_id r) (kyc_score r) (kyc_result r) (kyc_notes r) (decision_at r) (decision_by r) (priority r) (limits_requested_json r) (consent_personal_data r) (consent_marketing r) (comment r) (created_at r) (updated_at r).
Definition set_delivery_comment (v : option string) (r : t) : t :=
  mk (id r) (application_no r) (client_id r) (product_id r) (tariff_id r) (channel_id r) (branch_id r) (delivery_method_id r) (delivery_address r) v (embossing_name r) (is_salary_project r) (requested_at r) (requested_delivery_date r) (planned_issue_date r) (status_id r) (reject_reason_id r) (kyc_score r) (kyc_result r) (kyc_notes r) (decision_at r) (decision_by r) (priority r) (limits_requested_json r) (consent_personal_data r) (consent_marketing r) (comment r) (created_at r) (updated_at r).
Definition set_embossing_name (v : option string) (r : t) : t :=
  mk (id r) (application_no r) (client_id r) (product_id r) (tariff_id r) (channel_id r) (branch_id r) (delivery_method_id r) (delivery_address r) (delivery_comment r) v (is_salary_project r) (requested_at r) (requested_delivery_date r) (planned_issue_date r) (status_id r) (reject_reason_id r) (kyc_score r) (kyc_result r) (kyc_notes r) (decision_at r) (decision_by r) (priority r) (limits_requested_json r) (consent_personal_data r) (consent_marketing r) (comment r) (created_at r) (updated_at r).
Definition set_is_salary_project (v : bool) (r : t) : t :=
  mk (id r) (application_no r) (client_id r) (product_id r) (tariff_id r) (channel_id r) (branch_id r) (delivery_method_id r) (delivery_address r) (delivery_comment r) (embossing_name r) v (requested_at r) (requested_delivery_date r) (planned_issue_date r) (status_id r) (reject_reason_id r) (kyc_score r) (kyc_result r) (kyc_notes r) (decision_at r) (decision_by r) (priority r) (limits_requested_json r) (consent_personal_data r) (consent_marketing r) (comment r) (created_at r) (updated_at r).
Definition set_requested_at (v : datetime) (r : t) : t :=
  mk (id r) (application_no r) (client_id r) (product_id r) (tariff_id r) (channel_id r) (branch_id r) (delivery_method_id r) (delivery_address r) (delivery_comment r) (embossing_name r) (is_salary_project r) v (requested_delivery_date r) (planned_issue_date r) (status_id r) (reject_reason_id r) (kyc_score r) (kyc_result r) (kyc_notes r) (decision_at r) (decision_by r) (priority r) (limits_requested_json r) (consent_personal_data r) (consent_marketing r) (comment r) (created_at r) (updated_at r).
Definition set_requested_delivery_date (v : option date) (r : t) : t :=
  mk (id r) (application_no r) (client_id r) (product_id r) (tariff_id r) (channel_id r) (branch_id r) (delivery_method_id r) (delivery_address r) (delivery_comment r) (embossing_name r) (is_salary_project r) (requested_at r) v (planned_issue_date r) (status_id r) (reject_reason_id r) (kyc_score r) (kyc_result r) (kyc_notes r) (decision_at r) (decision_by r) (priority r) (limits_requested_json r) (consent_personal_data r) (consent_marketing r) (comment r) (created_at r) (updated_at r).
Definition set_planned_issue_date (v : option date) (r : t) : t :=
  mk (id r) (application_no r) (client_id r) (product_id r) (tariff_id r) (channel_id r) (branch_id r) (delivery_method_id r) (delivery_address r) (delivery_comment r) (embossing_name r) (is_salary_project r) (requested_at r) (requested_delivery_date r) v (status_id r) (reject_reason_id r) (kyc_score r) (kyc_result r) (kyc_notes r) (decision_at r) (decision_by r) (priority r) (limits_requested_json r) (consent_personal_data r) (consent_marketing r) (comment r) (created_at r) (updated_at r).
Definition set_status_id (v : Z) (r : t) : t :=
  mk (id r) (application_no r) (client_id r) (product_id r) (tariff_id r) (channel_id r) (branch_id r) (delivery_method_id r) (delivery_address r) (delivery_comment r) (embossing_name r) (is_salary_project r) (requested_at r) (requested_delivery_date r) (planned_issue_date r) v (reject_reason_id r) (kyc_score r) (kyc_result r) (kyc_notes r) (decision_at r) (decision_by r) (priority r) (limits_requested_json r) (consent_personal_data r) (consent_marketing r) (comment r) (created_at r) (updated_at r).
Definition set_reject_reason_id (v : option Z) (r : t) : t :=
  mk (id r) (application_no r) (client_id r) (product_id r) (tariff_id r) (channel_id r) (branch_id r) (delivery_method_id r) (delivery_address r) (delivery_comment r) (embossing_name r) (is_salary_project r) (requested_at r) (requested_delivery_date r) (planned_issue_date r) (status_id r) v (kyc_score r) (kyc_result r) (kyc_notes r) (decision_at r) (decision_by r) (priority r) (limits_requested_json r) (consent_personal_data r) (consent_marketing r) (comment r) (created_at r) (updated_at r).
Definition set_kyc_score (v : option Z) (r : t) : t :=
  mk (id r) (application_no r) (client_id r) (product_id r) (tariff_id r) (channel_id r) (branch_id r) (delivery_method_id r) (delivery_address r) (delivery_comment r) (embossing_name r) (is_salary_project r) (requested_at r) (requested_delivery_date r) (planned_issue_date r) (status_id r) (reject_reason_id r) v (kyc_result r) (kyc_notes r) (decision_at r) (decision_by r) (priority r) (limits_requested_json r) (consent_personal_data r) (consent_marketing r) (comment r) (created_at r) (updated_at r).
Definition set_kyc_result (v : option string) (r : t) : t :=
  mk (id r) (application_no r) (client_id r) (product_id r) (tariff_id r) (channel_id r) (branch_id r) (delivery_method_id r) (delivery_address r) (delivery_comment r) (embossing_name r) (is_salary_project r) (requested_at r) (requested_delivery_date r) (planned_issue_date r) (status_id r) (reject_reason_id r) (kyc_score r) v (kyc_notes r) (decision_at r) (decision_by r) (priority r) (limits_requested_json r) (consent_personal_data r) (consent_marketing r) (comment r) (created_at r) (updated_at r).
Definition set_kyc_notes (v : option string) (r : t) : t :=
  mk (id r) (application_no r) (client_id r) (product_id r) (tariff_id r) (channel_id r) (branch_id r) (delivery_method_id r) (delivery_address r) (delivery_comment r) (embossing_name r) (is_salary_project r) (requested_at r) (requested_delivery_date r) (planned_issue_date r) (status_id r) (reject_reason_id r) (kyc_score r) (kyc_result r) v (decision_at r) (decision_by r) (priority r) (limits_requested_json r) (consent_personal_data r) (consent_marketing r) (comment r) (created_at r) (updated_at r).
Definition set_decision_at (v : option datetime) (r : t) : t :=
  mk (id r) (application_no r) (client_id r) (product_id r) (tariff_id r) (channel_id r) (branch_id r) (delivery_method_id r) (delivery_address r) (delivery_comment r) (embossing_name r) (is_salary_project r) (requested_at r) (requested_delivery_date r) (planned_issue_date r) (status_id r) (reject_reason_id r) (kyc_score r) (kyc_result r) (kyc_notes r) v (decision_by r) (priority r) (limits_requested_json r) (consent_personal_data r) (consent_marketing r) (comment r) (created_at r) (updated_at r).
Definition set_decision_by (v : option string) (r : t) : t :=
  mk (id r) (application_no r) (client_id r) (product_id r) (tariff_id r) (channel_id r) (branch_id r) (delivery_method_id r) (delivery_address r) (delivery_comment r) (embossing_name r) (is_salary_project r) (requested_at r) (requested_delivery_date r) (planned_issue_date r) (status_id r) (reject_reason_id r) (kyc_score r) (kyc_result r) (kyc_notes r) (decision_at r) v (priority r) (limits_requested_json r) (consent_personal_data r) (consent_marketing r) (comment r) (created_at r) (updated_at r).
Definition set_priority (v : string) (r : t) : t :=
  mk (id r) (application_no r) (client_id r) (product_id r) (tariff_id r) (channel_id r) (branch_id r) (delivery_method_id r) (delivery_address r) (delivery_comment r) (embossing_name r) (is_salary_project r) (requested_at r) (requested_delivery_date r) (planned_issue_date r) (status_id r) (reject_reason_id r) (kyc_score r) (kyc_result r) (kyc_notes r) (decision_at r) (decision_by r) v (limits_requested_json r) (consent_personal_data r) (consent_marketing r) (comment r) (created_at r) (updated_at r).
Definition set_limits_requested_json (v : json) (r : t) : t :=
  mk (id r) (application_no r) (client_id r) (product_id r) (tariff_id r) (channel_id r) (branch_id r) (delivery_method_id r) (delivery_address r) (delivery_comment r) (embossing_name r) (is_salary_project r) (requested_at r) (requested_delivery_date r) (planned_issue_date r) (status_id r) (reject_reason_id r) (kyc_score r) (kyc_result r) (kyc_notes r) (decision_at r) (decision_by r) (priority r) v (consent_personal_data r) (consent_marketing r) (comment r) (created_at r) (updated_at r).
Definition set_consent_personal_data (v : bool) (r : t) : t :=
  mk (id r) (application_no r) (client_id r) (product_id r) (tariff_id r) (channel_id r) (branch_id r) (delivery_method_id r) (delivery_address r) (delivery_comment r) (embossing_name r) (is_salary_project r) (requested_at r) (requested_delivery_date r) (planned_issue_date r) (status_id r) (reject_reason_id r) (kyc_score r) (kyc_result r) (kyc_notes r) (decision_at r) (decision_by r) (priority r) (limits_requested_json r) v (consent_marketing r) (comment r) (created_at r) (updated_at r).
Definition set_consent_marketing (v : bool) (r : t) : t :=
  mk (id r) (application_no r) (client_id r) (product_id r) (tariff_id r) (channel_id r) (branch_id r) (delivery_method_id r) (delivery_address r) (delivery_comment r) (embossing_name r) (is_salary_project r) (requested_at r) (requested_delivery_date r) (planned_issue_date r) (status_id r) (reject_reason_id r) (kyc_score r) (kyc_result r) (kyc_notes r) (decision_at r) (decision_by r) (priority r) (limits_requested_json r) (consent_personal_data r) v (comment r) (created_at r) (updated_at r).
Definition set_comment (v : option string) (r : t) : t :=
  mk (id r) (application_no r) (client_id r) (product_id r) (tariff_id r) (channel_id r) (branch_id r) (delivery_method_id r) (delivery_address r) (delivery_comment r) (embossing_name r) (is_salary_project r) (requested_at r) (requested_delivery_date r) (planned_issue_date r) (status_id r) (reject_reason_id r) (kyc_score r) (kyc_result r) (kyc_notes r) (decision_at r) (decision_by r) (priority r) (limits_requested_json r) (consent_personal_data r) (consent_marketing r) v (created_at r) (updated_at r).
Definition set_created_at (v : datetime) (r : t) : t :=
  mk (id r) (application_no r) (client_id r) (product_id r) (tariff_id r) (channel_id r) (branch_id r) (delivery_method_id r) (delivery_address r) (delivery_comment r) (embossing_name r) (is_salary_project r) (requested_at r) (requested_delivery_date r) (planned_issue_date r) (status_id r) (reject_reason_id r) (kyc_score r) (kyc_result r) (kyc_notes r) (decision_at r) (decision_by r) (priority r) (limits_requested_json r) (consent_personal_data r) (consent_marketing r) (comment r) v (updated_at r).
Definition set_updated_at (v : datetime) (r : t) : t :=
  mk (id r) (application_no r) (client_id r) (product_id r) (tariff_id r) (channel_id r) (branch_id r) (delivery_method_id r) (delivery_address r) (delivery_comment r) (embossing_name r) (is_salary_project r) (requested_at r) (requested_delivery_date r) (planned_issue_date r) (status_id r) (reject_reason_id r) (kyc_score r) (kyc_result r) (kyc_notes r) (decision_at r) (decision_by r) (priority r) (limits_requested_json r) (consent_personal_data r) (consent_marketing r) (comment r) (created_at r) v.
End CardApplication.

(** Row of table [issue_batch] (class [IssueBatch] of models.py). *)
Module IssueBatch.
Record t : Type := mk {
  id : uuid;
  batch_no : string;
  vendor_id : Z;
  status_id : Z;
  planned_send_at : option datetime;
  sent_at : option datetime;
  received_at : option datetime;
  created_at : datetime
}.
Definition set_vendor_id (v : Z) (r : t) : t :=
  mk (id r) (batch_no r) v (status_id r) (planned_send_at r) (sent_at r) (received_at r) (created_at r).
Definition set_status_id (v : Z) (r : t) : t :=
  mk (id r) (batch_no r) (vendor_id r) v (planned_send_at r) (sent_at r) (received_at r) (created_at r).
Definition set_planned_send_at (v : option datetime) (r : t) : t :=
  mk (id r) (batch_no r) (vendor_id r) (status_id r) v (sent_at r) (received_at r) (created_at r).
Definition set_sent_at (v : option datetime) (r : t) : t :=
  mk (id r) (batch_no r) (vendor_id r) (status_id r) (planned_send_at r) v (received_at r) (created_at r).
Definition set_received_at (v : option datetime) (r : t) : t :=
  mk (id r) (batch_no r) (vendor_id r) (status_id r) (planned_send_at r) (sent_at r) v (created_at r).
End IssueBatch.

(** Row of table [issue_batch_item] (class [IssueBatchItem] of models.py). *)
Module IssueBatchItem.
Record t : Type := mk {
  id : uuid;
  batch_id : uuid;
  application_id : uuid;
  produced_at : option datetime;
  delivered_to_branch_at : option datetime
}.
End IssueBatchItem.

(** Row of table [card] (class [Card] of models.py). *)
Module Card.
Record t : Type := mk {
  id : uuid;
  card_no : string;
  application_id : uuid;
  status_id : Z;
  pan_masked : option string;
  expiry_month : option Z;
  expiry_year : option Z;
  issued_at : option datetime;
  delivered_at : option datetime;
  handed_at : option datetime;
  activated_at : option datetime;
  closed_at : option datetime;
  activation_channel_id : option Z;
  note : option string
}.
Definition set_status_id (v : Z) (r : t) : t :=
  mk (id r) (card_no r) (application_id r) v (pan_masked r) (expiry_month r) (expiry_year r) (issued_at r) (delivered_at r) (handed_at r) (activated_at r) (closed_at r) (activation_channel_id r) (note r).
Definition set_pan_masked (v : option string) (r : t) : t :=
  mk (id r) (card_no r) (application_id r) (status_id r) v (expiry_month r) (expiry_year r) (issued_at r) (delivered_at r) (handed_at r) (activated_at r) (closed_at r) (activation_channel_id r) (note r).
Definition set_expiry_month (v : option Z) (r : t) : t :=
  mk (id r) (card_no r) (application_id r) (status_id r) (pan_masked r) v (expiry_year r) (issued_at r) (delivered_at r) (handed_at r) (activated_at r) (closed_at r) (activation_channel_id r) (note r).
Definition set_expiry_year (v : option Z) (r : t) : t :=
  mk (id r) (card_no r) (application_id r) (status_id r) (pan_masked r) (expiry_month r) v (issued_at r) (delivered_at r) (handed_at r) (activated_at r) (closed_at r) (activation_channel_id r) (note r).
Definition set_issued_at (v : option datetime) (r : t) : t :=
  mk (id r) (card_no r) (application_id r) (status_id r) (pan_masked r) (expiry_month r) (expiry_year r) v (delivered_at r) (handed_at r) (activated_at r) (closed_at r) (activation_channel_id r) (note r).
Definition set_delivered_at (v : option datetime) (r : t) : t :=
  mk (id r) (card_no r) (application_id r) (status_id r) (pan_masked r) (expiry_month r) (expiry_year r) (issued_at r) v (handed_at r) (activated_at r) (closed_at r) (activation_channel_id r) (note r).
Definition set_handed_at (v : option datetime) (r : t) : t :=
  mk (id r) (card_no r) (application_id r) (status_id r) (pan_masked r) (expiry_month r) (expiry_year r) (issued_at r) (delivered_at r) v (activated_at r) (closed_at r) (activation_channel_id r) (note r).
Definition set_activated_at (v : option datetime) (r : t) : t :=
  mk (id r) (card_no r) (application_id r) (status_id r) (pan_masked r) (expiry_month r) (expiry_year r) (issued_at r) (delivered_at r) (handed_at r) v (closed_at r) (activation_channel_id r) (note r).
Definition set_closed_at (v : option datetime) (r : t) : t :=
  mk (id r) (card_no r) (application_id r) (status_id r) (pan_masked r) (expiry_month r) (expiry_year r) (issued_at r) (delivered_at r) (handed_at r) (activated_at r) v (activation_channel_id r) (note r).
End Card.

(** Row of table [status_history] (class [StatusHistory] of models.py). *)
Module StatusHistory.
Record t : Type := mk {
  id : uuid;
  entity_type : string;
  entity_id : uuid;
  status_id : Z;
  changed_at : datetime;
  changed_by : option string
}.
End StatusHistory.
(** Request bodies of [schemas.py], after validation: every field holds
    a value, the declared default when the caller left it out. *)
Module ApplicationCreate.
Record t : Type := mk {
  client_id : uuid;
  product_id : Z;
  tariff_id : Z;
  channel_id : Z;
  branch_id : Z;
  delivery_method_id : Z;
  delivery_address : option string;
  delivery_comment : option string;
  embossing_name : option string;
  is_salary_project : bool;
  requested_delivery_date : option date;
  priority : string;
  limits_requested_json : json;
  consent_personal_data : bool;
  consent_marketing : bool;
  comment : option string
}.
End ApplicationCreate.

(** [class ApplicationUpdate(ApplicationCreate): pass]. *)
Module ApplicationUpdate := ApplicationCreate.

Module ApplicationDecisionIn.
Record t : Type := mk {
  decision : string;
  reject_reason_id : option Z;
  planned_issue_date : option date;
  kyc_score : option Z;
  kyc_result : option string;
  kyc_notes : option string;
  decision_by : option string
}.
End ApplicationDecisionIn.

Module BatchCreate.
Record t : Type := mk {
  vendor_id : Z;
  planned_send_at : option datetime
}.
End BatchCreate.

Module BatchUpdate.
Record t : Type := mk {
  vendor_id : option Z;
  planned_send_at : option datetime
}.
End BatchUpdate.

(** The dictionary [issue_batch_cards] returns. *)
Module IssueReport.
Record t : Type := mk {
  applications : Z;
  cards_total : Z;
  cards_issued_now : Z
}.
End IssueReport.

(* ================================================================= *)
(** * The store and the session *)

(** The tables the lifecycle engine reads and writes.  The reference
    tables other than the status catalogue (clients, products, tariffs,
    channels, branches, delivery methods, vendors, reject reasons) are
    reached through foreign keys only; the store's check of those keys
    and of column widths is outside this model, which follows what the
    service itself decides. *)
Record Database : Type := mkDatabase {
  ref_status : list RefStatus.t;
  card_application : list CardApplication.t;
  issue_batch : list IssueBatch.t;
  issue_batch_item : list IssueBatchItem.t;
  card : list Card.t;
  status_history : list StatusHistory.t
}.

Definition set_card_application (v : list CardApplication.t) (d : Database) : Database :=
  mkDatabase (ref_status d) v (issue_batch d) (issue_batch_item d) (card d)
             (status_history d).

Definition set_issue_batch (v : list IssueBatch.t) (d : Database) : Database :=
  mkDatabase (ref_status d) (card_application d) v (issue_batch_item d) (card d)
             (status_history d).

Definition set_issue_batch_item (v : list IssueBatchItem.t) (d : Database) : Database :=
  mkDatabase (ref_status d) (card_application d) (issue_batch d) v (card d)
             (status_history d).

Definition set_card (v : list Card.t) (d : Database) : Database :=
  mkDatabase (ref_status d) (card_application d) (issue_batch d)
             (issue_batch_item d) v (status_history d).

Definition set_status_history (v : list StatusHistory.t) (d : Database) : Database :=
  mkDatabase (ref_status d) (card_application d) (issue_batch d)
             (issue_batch_item d) (card d) v.

(** What a call of the service runs against.  [committed] is the
    durable content of the store; [session] is the content as the
    SQLAlchemy session of the call sees it, that is, with the objects it
    has added or changed and not yet committed.  The three sequences of
    the migration hold the last value they handed out (0 before the
    first [nextval]); they live outside transactions.  [clock] is the
    instant [utcnow()] reads; the readings of one call are taken at the
    same instant. *)
Record World : Type := mkWorld {
  committed : Database;
  session : Database;
  app_seq : N;
  batch_seq : N;
  card_seq : N;
  clock : datetime
}.

Definition set_session (d : Database) (w : World) : World :=
  mkWorld (committed w) d (app_seq w) (batch_seq w) (card_seq w) (clock w).

Definition set_committed (d : Database) (w : World) : World :=
  mkWorld d (session w) (app_seq w) (batch_seq w) (card_seq w) (clock w).

Definition set_app_seq (n : N) (w : World) : World :=
  mkWorld (committed w) (session w) n (batch_seq w) (card_seq w) (clock w).

Definition set_batch_seq (n : N) (w : World) : World :=
  mkWorld (committed w) (session w) (app_seq w) n (card_seq w) (clock w).

Definition set_card_seq (n : N) (w : World) : World :=
  mkWorld (committed w) (session w) (app_seq w) (batch_seq w) n (clock w).

(** The exceptions a call can end with.  The service itself raises
    [ValueError] only, told apart by its message; the others come from
    the ORM ([scalar_one], attribute access on [None]) and the store. *)
Inductive exn : Type :=
| ValueError (msg : string)
| AttributeError
| NoResultFound
| MultipleResultsFound
| IntegrityError
| ProgrammingError.

Inductive outcome (A : Type) : Type :=
| Returned (a : A)
| Raised (e : exn).

Arguments Returned {A} a.
Arguments Raised {A} e.

(** A computation over the world; an exception keeps the world as it
    was when it was raised, so that what had been committed before it
    stays visible. *)
Definition M (A : Type) : Type := World -> outcome A * World.

Definition ret {A : Type} (a : A) : M A := fun w => (Returned a, w).

Definition raise {A : Type} (e : exn) : M A := fun w => (Raised e, w).

Definition bind {A B : Type} (m : M A) (k : A -> M B) : M B :=
  fun w =>
    match m w with
    | (Returned a, w') => k a w'
    | (Raised e, w') => (Raised e, w')
    end.

Declare Scope service_scope.
Delimit Scope service_scope with service.
Notation "x <- m ;; k" := (bind m (fun x => k))
  (at level 100, m at next level, right associativity) : service_scope.
Notation "m ;; k" := (bind m (fun _ => k))
  (at level 100, right associativity) : service_scope.
Open Scope service_scope.

(** Reading through the session. *)
Definition query {A : Type} (f : Database -> A) : M A :=
  fun w => (Returned (f (session w)), w).

(** Changing objects of the session; nothing is durable before [commit]. *)
Definition mutate (f : Database -> Database) : M unit :=
  fun w => (Returned tt, set_session (f (session w)) w).

(** [db.commit()]. *)
Definition commit : M unit :=
  fun w => (Returned tt, set_committed (session w) w).

(** [utils.utcnow]. *)
Definition utcnow : M datetime :=
  fun w => (Returned (clock w), w).

(** [utils.next_seq]: [SELECT nextval('<seq_name>')]. *)
Definition next_seq (seq_name : string) : M Z :=
  fun w =>
    if String.eqb seq_name "app_seq" then
      (Returned (Z.of_N (N.succ (app_seq w))), set_app_seq (N.succ (app_seq w)) w)
    else if String.eqb seq_name "batch_seq" then
      (Returned (Z.of_N (N.succ (batch_seq w))), set_batch_seq (N.succ (batch_seq w)) w)
    else if String.eqb seq_name "card_seq" then
      (Returned (Z.of_N (N.succ (card_seq w))), set_card_seq (N.succ (card_seq w)) w)
    else (Raised ProgrammingError, w).

(** The [uuid.uuid4] default of a primary key: an identifier no row of
    the table carries yet. *)
Definition uuid4 (used : list uuid) : uuid :=
  N.succ (fold_right N.max 0%N used).

(** [Result.scalar_one] and [Result.scalar_one_or_none]. *)
Definition scalar_one {A : Type} (rows : list A) : M A :=
  match rows with
  | [] => raise NoResultFound
  | [r] => ret r
  | _ => raise MultipleResultsFound
  end.

Definition scalar_one_or_none {A : Type} (rows : list A) : M (option A) :=
  match rows with
  | [] => ret None
  | [r] => ret (Some r)
  | _ => raise MultipleResultsFound
  end.

(** [db.get(Model, pk)]. *)
Definition get_RefStatus (pk : Z) : M (option RefStatus.t) :=
  query (fun d => find (fun r => RefStatus.id r =? pk) (ref_status d)).

Definition get_CardApplication (pk : uuid) : M (option CardApplication.t) :=
  query (fun d => find (fun r => N.eqb (CardApplication.id r) pk) (card_application d)).

Definition get_IssueBatch (pk : uuid) : M (option IssueBatch.t) :=
  query (fun d => find (fun r => N.eqb (IssueBatch.id r) pk) (issue_batch d)).

Definition get_Card (pk : uuid) : M (option Card.t) :=
  query (fun d => find (fun r => N.eqb (Card.id r) pk) (card d)).

(** [.code] of the result of [db.get(models.RefStatus, ...)]. *)
Definition code_attr (s : option RefStatus.t) : M string :=
  match s with
  | Some r => ret (RefStatus.code r)
  | None => raise AttributeError
  end.

(** The rows with primary key [pk] take the changes [f]
    ([UPDATE ... SET ... WHERE id = pk]). *)
Definition update_where {R : Type} (key : R -> uuid) (pk : uuid) (f : R -> R)
    (rows : list R) : list R :=
  map (fun r => if N.eqb (key r) pk then f r else r) rows.

(** Attribute assignments on a loaded object: the session's row of
    that primary key takes the new values, which reach the store with
    the next flush, and the object is returned as it now reads. *)
Definition assign_CardApplication (a : CardApplication.t)
    (f : CardApplication.t -> CardApplication.t) : M CardApplication.t :=
  mutate (fun d =>
    set_card_application
      (update_where CardApplication.id (CardApplication.id a) f
                    (card_application d)) d) ;;
  ret (f a).

Definition assign_IssueBatch (b : IssueBatch.t)
    (f : IssueBatch.t -> IssueBatch.t) : M IssueBatch.t :=
  mutate (fun d =>
    set_issue_batch
      (update_where IssueBatch.id (IssueBatch.id b) f (issue_batch d)) d) ;;
  ret (f b).

Definition assign_Card (c : Card.t) (f : Card.t -> Card.t) : M Card.t :=
  mutate (fun d =>
    set_card (update_where Card.id (Card.id c) f (card d)) d) ;;
  ret (f c).

(** [db.add(row)] for the tables the engine inserts into; the primary
    key takes its [uuid4] default.  The unique index on
    [issue_batch_item.application_id] and the one on
    [card.application_id] refuse a second row for an application: the
    INSERT goes out with the next flush, before the session's next
    statement or at the commit, and fails the call there, before
    anything of it is committed.  The business numbers are unique by
    construction, each embedding a fresh sequence value. *)
Definition add_CardApplication (mk_row : uuid -> CardApplication.t) : M CardApplication.t :=
  rows <- query card_application ;;
  let a := mk_row (uuid4 (map CardApplication.id rows)) in
  mutate (fun d => set_card_application (card_application d ++ [a]) d) ;;
  ret a.

Definition add_IssueBatch (mk_row : uuid -> IssueBatch.t) : M IssueBatch.t :=
  rows <- query issue_batch ;;
  let b := mk_row (uuid4 (map IssueBatch.id rows)) in
  mutate (fun d => set_issue_batch (issue_batch d ++ [b]) d) ;;
  ret b.

Definition add_IssueBatchItem (mk_row : uuid -> IssueBatchItem.t) : M IssueBatchItem.t :=
  rows <- query issue_batch_item ;;
  let i := mk_row (uuid4 (map IssueBatchItem.id rows)) in
  if existsb (fun r => N.eqb (IssueBatchItem.application_id r)
                             (IssueBatchItem.application_id i)) rows
  then raise IntegrityError
  else
    mutate (fun d => set_issue_batch_item (issue_batch_item d ++ [i]) d) ;;
    ret i.

Definition add_Card (mk_row : uuid -> Card.t) : M Card.t :=
  rows <- query card ;;
  let c := mk_row (uuid4 (map Card.id rows)) in
  if existsb (fun r => N.eqb (Card.application_id r) (Card.application_id c)) rows
  then raise IntegrityError
  else
    mutate (fun d => set_card (card d ++ [c]) d) ;;
    ret c.

Definition add_StatusHistory (mk_row : uuid -> StatusHistory.t) : M unit :=
  mutate (fun d =>
    set_status_history
      (status_history d ++ [mk_row (uuid4 (map StatusHistory.id (status_history d)))]) d).

(** A [for] loop over a list. *)
Fixpoint for_each {A : Type} (l : list A) (body : A -> M unit) : M unit :=
  match l with
  | [] => ret tt
  | x :: rest => body x ;; for_each rest body
  end.

(* ================================================================= *)
(** * The service layer ([service.py]) *)

(** ** Helpers *)

Definition get_status_id (entity_type code : string) : M Z :=
  rows <- query (fun d =>
            filter (fun r => String.eqb (RefStatus.entity_type r) entity_type
                             && String.eqb (RefStatus.code r) code)
                   (ref_status d)) ;;
  s <- scalar_one rows ;;
  ret (RefStatus.id s).

Definition add_history (entity_type : string) (entity_id : uuid)
    (status_id : Z) (by_ : option string) : M unit :=
  now <- utcnow ;;
  add_StatusHistory (fun pk =>
    StatusHistory.mk pk entity_type entity_id status_id now by_).

Definition set_status (entity_type : string) (entity_id : uuid)
    (status_code : string) (by_ : option string) : M Z :=
  sid <- get_status_id entity_type status_code ;;
  add_history entity_type entity_id sid by_ ;;
  ret sid.

(** ** Applications *)

(** [for k, v in data.model_dump().items(): setattr(a, k, v)]. *)
Definition setattr_all (data : ApplicationUpdate.t) (a : CardApplication.t)
    : CardApplication.t :=
  CardApplication.set_comment (ApplicationUpdate.comment data)
  (CardApplication.set_consent_marketing (ApplicationUpdate.consent_marketing data)
  (CardApplication.set_consent_personal_data (ApplicationUpdate.consent_personal_data data)
  (CardApplication.set_limits_requested_json (ApplicationUpdate.limits_requested_json data)
  (CardApplication.set_priority (ApplicationUpdate.priority data)
  (CardApplication.set_requested_delivery_date (ApplicationUpdate.requested_delivery_date data)
  (CardApplication.set_is_salary_project (ApplicationUpdate.is_salary_project data)
  (CardApplication.set_embossing_name (ApplicationUpdate.embossing_name data)
  (CardApplication.set_delivery_comment (ApplicationUpdate.delivery_comment data)
  (CardApplication.set_delivery_address (ApplicationUpdate.delivery_address data)
  (CardApplication.set_delivery_method_id (ApplicationUpdate.delivery_method_id data)
  (CardApplication.set_branch_id (ApplicationUpdate.branch_id data)
  (CardApplication.set_channel_id (ApplicationUpdate.channel_id data)
  (CardApplication.set_tariff_id (ApplicationUpdate.tariff_id data)
  (CardApplication.set_product_id (ApplicationUpdate.product_id data)
  (CardApplication.set_client_id (ApplicationUpdate.client_id data) a))))))))))))))).

(** The constructor call of [create_application] (the dumped request
    fields, [application_no] and [status_id]) followed by its three
    timestamp assignments; the columns not named are null. *)
Definition new_CardApplication (data : ApplicationCreate.t) (app_no : string)
    (sid : Z) (requested created updated : datetime) (pk : uuid)
    : CardApplication.t :=
  CardApplication.mk pk app_no
    (ApplicationCreate.client_id data) (ApplicationCreate.product_id data)
    (ApplicationCreate.tariff_id data) (ApplicationCreate.channel_id data)
    (ApplicationCreate.branch_id data) (ApplicationCreate.delivery_method_id data)
    (ApplicationCreate.delivery_address data) (ApplicationCreate.delivery_comment data)
    (ApplicationCreate.embossing_name data) (ApplicationCreate.is_salary_project data)
    requested (ApplicationCreate.requested_delivery_date data) None
    sid None None None None None None
    (ApplicationCreate.priority data) (ApplicationCreate.limits_requested_json data)
    (ApplicationCreate.consent_personal_data data)
    (ApplicationCreate.consent_marketing data) (ApplicationCreate.comment data)
    created updated.

Definition create_application (data : ApplicationCreate.t) (by_ : option string)
    : M CardApplication.t :=
  now <- utcnow ;;
  let year := Datetime.year now in
  seq <- next_seq "app_seq" ;;
  let app_no := make_no "APP" year seq 6 in
  sid <- get_status_id "application" "NEW" ;;
  requested <- utcnow ;;
  created <- utcnow ;;
  updated <- utcnow ;;
  a <- add_CardApplication
         (new_CardApplication data app_no sid requested created updated) ;;
  commit ;;
  add_history "application" (CardApplication.id a) sid by_ ;;
  commit ;;
  ret a.

Definition update_application (app_id : uuid) (data : ApplicationUpdate.t)
    (by_ : option string) : M CardApplication.t :=
  a <- get_CardApplication app_id ;;
  match a with
  | None => raise (ValueError "Application not found")
  | Some a =>
      (* protect fields if already decided *)
      status <- get_RefStatus (CardApplication.status_id a) ;;
      code <- code_attr status ;;
      if in_set code ["APPROVED"; "REJECTED"; "IN_BATCH"] then
        raise (ValueError
          "Application is already in a final or processing state. Editing is restricted.")
      else
        a <- assign_CardApplication a (setattr_all data) ;;
        now <- utcnow ;;
        a <- assign_CardApplication a (CardApplication.set_updated_at now) ;;
        commit ;;
        ret a
  end.

Definition decide_application (app_id : uuid) (data : ApplicationDecisionIn.t)
    (by_ : option string) : M CardApplication.t :=
  a <- get_CardApplication app_id ;;
  match a with
  | None => raise (ValueError "Application not found")
  | Some a =>
      status <- get_RefStatus (CardApplication.status_id a) ;;
      cur <- code_attr status ;;
      if negb (in_set cur ["NEW"; "IN_REVIEW"]) then
        raise (ValueError ("Decision is not allowed from status " ++ cur))
      else
        now <- utcnow ;;
        a <- assign_CardApplication a
               (CardApplication.set_kyc_score (ApplicationDecisionIn.kyc_score data)) ;;
        a <- assign_CardApplication a
               (CardApplication.set_kyc_result (ApplicationDecisionIn.kyc_result data)) ;;
        a <- assign_CardApplication a
               (CardApplication.set_kyc_notes (ApplicationDecisionIn.kyc_notes data)) ;;
        a <- assign_CardApplication a (CardApplication.set_decision_at (Some now)) ;;
        a <- assign_CardApplication a
               (CardApplication.set_decision_by
                  (if truthy_str (ApplicationDecisionIn.decision_by data)
                   then ApplicationDecisionIn.decision_by data else by_)) ;;
        a <- (if String.eqb (ApplicationDecisionIn.decision data) "approve" then
                a <- assign_CardApplication a
                       (CardApplication.set_reject_reason_id None) ;;
                a <- assign_CardApplication a
                       (CardApplication.set_planned_issue_date
                          (ApplicationDecisionIn.planned_issue_date data)) ;;
                sid <- set_status "application" (CardApplication.id a) "APPROVED" by_ ;;
                assign_CardApplication a (CardApplication.set_status_id sid)
              else if String.eqb (ApplicationDecisionIn.decision data) "reject" then
                if negb (truthy_int (ApplicationDecisionIn.reject_reason_id data)) then
                  raise (ValueError "reject_reason_id is required for rejection")
                else
                  a <- assign_CardApplication a
                         (CardApplication.set_reject_reason_id
                            (ApplicationDecisionIn.reject_reason_id data)) ;;
                  sid <- set_status "application" (CardApplication.id a) "REJECTED" by_ ;;
                  assign_CardApplication a (CardApplication.set_status_id sid)
              else
                raise (ValueError "decision must be 'approve' or 'reject'")) ;;
        a <- assign_CardApplication a (CardApplication.set_updated_at now) ;;
        commit ;;
        ret a
  end.

(** ** Batches *)

Definition create_batch (data : BatchCreate.t) (by_ : option string)
    : M IssueBatch.t :=
  now <- utcnow ;;
  let year := Datetime.year now in
  seq <- next_seq "batch_seq" ;;
  let batch_no := make_no "BAT" year seq 6 in
  sid <- get_status_id "batch" "CREATED" ;;
  created <- utcnow ;;
  b <- add_IssueBatch (fun pk =>
         IssueBatch.mk pk batch_no (BatchCreate.vendor_id data) sid
                       (BatchCreate.planned_send_at data) None None created) ;;
  commit ;;
  add_history "batch" (IssueBatch.id b) sid by_ ;;
  commit ;;
  ret b.

Definition add_batch_items (batch_id : uuid) (application_ids : list uuid)
    (by_ : option string) : M unit :=
  batch <- get_IssueBatch batch_id ;;
  match batch with
  | None => raise (ValueError "Batch not found")
  | Some _ =>
      approved_id <- get_status_id "application" "APPROVED" ;;
      in_batch_id <- get_status_id "application" "IN_BATCH" ;;
      for_each application_ids (fun aid =>
        a <- get_CardApplication aid ;;
        match a with
        | None => raise (ValueError ("Application " ++ uuid_str aid ++ " not found"))
        | Some a =>
            if negb (CardApplication.status_id a =? approved_id) then
              raise (ValueError ("Application " ++ CardApplication.application_no a
                                 ++ " must be APPROVED to be added to batch"))
            else
              (* add item (unique constraint on application_id prevents duplicates) *)
              add_IssueBatchItem (fun pk =>
                IssueBatchItem.mk pk batch_id aid None None) ;;
              (* move application to IN_BATCH *)
              a <- assign_CardApplication a (CardApplication.set_status_id in_batch_id) ;;
              now <- utcnow ;;
              a <- assign_CardApplication a (CardApplication.set_updated_at now) ;;
              add_history "application" (CardApplication.id a) in_batch_id by_
        end) ;;
      commit
  end.

(** ** Cards *)

Definition CARD_ALLOWED : list (string * list string) :=
  [ ("CREATED", ["ISSUED"]);
    ("ISSUED", ["DELIVERED"]);
    ("DELIVERED", ["HANDED"]);
    ("HANDED", ["ACTIVATED"]);
    ("ACTIVATED", ["CLOSED"]);
    ("CLOSED", []) ].

(** [d.get(key)] and [d.get(key, default)] of a dictionary with string
    keys. *)
Fixpoint dict_get {V : Type} (d : list (string * V)) (key : string) : option V :=
  match d with
  | [] => None
  | (k, v) :: rest => if String.eqb k key then Some v else dict_get rest key
  end.

Definition dict_get_default {V : Type} (d : list (string * V)) (key : string)
    (default : V) : V :=
  match dict_get d key with
  | Some v => v
  | None => default
  end.

Definition ensure_card_for_application (app_id : uuid) (by_ : option string)
    : M Card.t :=
  a <- get_CardApplication app_id ;;
  match a with
  | None => raise (ValueError "Application not found")
  | Some a =>
      (* must be approved or in batch *)
      status <- get_RefStatus (CardApplication.status_id a) ;;
      cur_code <- code_attr status ;;
      if negb (in_set cur_code ["APPROVED"; "IN_BATCH"]) then
        raise (ValueError
          "Card can be created only for APPROVED/IN_BATCH applications")
      else
        rows <- query (fun d =>
                  filter (fun c => N.eqb (Card.application_id c) app_id) (card d)) ;;
        existing <- scalar_one_or_none rows ;;
        match existing with
        | Some c => ret c
        | None =>
            now <- utcnow ;;
            let year := Datetime.year now in
            seq <- next_seq "card_seq" ;;
            let card_no := make_no "CARD" year seq 6 in
            sid <- get_status_id "card" "CREATED" ;;
            c <- add_Card (fun pk =>
                   Card.mk pk card_no app_id sid None None None None None None
                           None None None None) ;;
            commit ;;
            add_history "card" (Card.id c) sid by_ ;;
            commit ;;
            ret c
        end
  end.

(** The [mapping] dictionary of [card_event]. *)
Definition event_mapping : list (string * string) :=
  [ ("issued", "ISSUED");
    ("delivered", "DELIVERED");
    ("handed", "HANDED");
    ("activated", "ACTIVATED");
    ("closed", "CLOSED") ].

Definition card_event (card_id : uuid) (event : string) (by_ : option string)
    : M Card.t :=
  c <- get_Card card_id ;;
  match c with
  | None => raise (ValueError "Card not found")
  | Some c =>
      now <- utcnow ;;
      status <- get_RefStatus (Card.status_id c) ;;
      current_code <- code_attr status ;;
      match dict_get event_mapping event with
      | None => raise (ValueError "Invalid event")
      | Some next_code =>
          if negb (in_set next_code (dict_get_default CARD_ALLOWED current_code []))
          then
            raise (ValueError ("Transition " ++ current_code ++ " -> " ++ next_code
                               ++ " is not allowed"))
          else
            (* set timestamps + demo PAN *)
            c <- (if String.eqb next_code "ISSUED" then
                    c <- assign_Card c (Card.set_issued_at (Some now)) ;;
                    c <- (if negb (truthy_str (Card.pan_masked c)) then
                            (* demo masked PAN (do not generate real PANs) *)
                            seq <- next_seq "card_seq" ;;
                            assign_Card c
                              (Card.set_pan_masked
                                 (Some ("**** **** **** "
                                        ++ str_int (1000 + seq mod 9000))))
                          else ret c) ;;
                    c <- (if negb (truthy_int (Card.expiry_month c)) then
                            assign_Card c (Card.set_expiry_month (Some 12))
                          else ret c) ;;
                    (if negb (truthy_int (Card.expiry_year c)) then
                       assign_Card c
                         (Card.set_expiry_year (Some (Datetime.year now + 3)))
                     else ret c)
                  else if String.eqb next_code "DELIVERED" then
                    assign_Card c (Card.set_delivered_at (Some now))
                  else if String.eqb next_code "HANDED" then
                    assign_Card c (Card.set_handed_at (Some now))
                  else if String.eqb next_code "ACTIVATED" then
                    assign_Card c (Card.set_activated_at (Some now))
                  else if String.eqb next_code "CLOSED" then
                    assign_Card c (Card.set_closed_at (Some now))
                  else ret c) ;;
            sid <- set_status "card" (Card.id c) next_code by_ ;;
            c <- assign_Card c (Card.set_status_id sid) ;;
            commit ;;
            ret c
      end
  end.

(** The body of the loop of [issue_batch_cards] for one application;
    [issued] is the counter of cards issued so far. *)
Definition issue_one (app_id : uuid) (by_ : option string) (issued : Z) : M Z :=
  card <- ensure_card_for_application app_id by_ ;;
  (* if already issued or later - skip *)
  status <- get_RefStatus (Card.status_id card) ;;
  cur_code <- code_attr status ;;
  if String.eqb cur_code "CREATED" then
    card_event (Card.id card) "issued" by_ ;;
    ret (issued + 1)
  else ret issued.

(** The loop of [issue_batch_cards], with its two counters. *)
Fixpoint issue_loop (ids : list uuid) (by_ : option string) (issued created : Z)
    : M (Z * Z) :=
  match ids with
  | [] => ret (issued, created)
  | app_id :: rest =>
      issued <- issue_one app_id by_ issued ;;
      issue_loop rest by_ issued (created + 1)
  end.

Definition issue_batch_cards (batch_id : uuid) (by_ : option string)
    : M IssueReport.t :=
  (* Create cards for all applications in the batch and move them to ISSUED *)
  ids <- query (fun d =>
           map IssueBatchItem.application_id
               (filter (fun i => N.eqb (IssueBatchItem.batch_id i) batch_id)
                       (issue_batch_item d))) ;;
  counters <- issue_loop ids by_ 0 0 ;;
  ret (IssueReport.mk (Z.of_nat (List.length ids)) (snd counters) (fst counters)).

Definition set_batch_status (batch_id : uuid) (status_code : string)
    (by_ : option string) : M IssueBatch.t :=
  b <- get_IssueBatch batch_id ;;
  match b with
  | None => raise (ValueError "Batch not found")
  | Some b =>
      now <- utcnow ;;
      b <- (if String.eqb status_code "SENT"
            then assign_IssueBatch b (IssueBatch.set_sent_at (Some now))
            else ret b) ;;
      b <- (if String.eqb status_code "RECEIVED"
            then assign_IssueBatch b (IssueBatch.set_received_at (Some now))
            else ret b) ;;
      sid <- set_status "batch" (IssueBatch.id b) status_code by_ ;;
      b <- assign_IssueBatch b (IssueBatch.set_status_id sid) ;;
      commit ;;
      (if String.eqb status_code "RECEIVED" then
         (* automatically issue cards when batch is received from the vendor *)
         issue_batch_cards batch_id by_ ;; ret tt
       else ret tt) ;;
      ret b
  end.

(** [update_batch].  [IssueBatch] has no [updated_at] column: the
    assignment [b.updated_at = utcnow()] leaves a plain attribute on the
    returned object and reaches no table, so the result pairs the row
    with that attribute. *)
Definition update_batch (batch_id : uuid) (data : BatchUpdate.t)
    (by_ : option string) : M (IssueBatch.t * datetime) :=
  b <- get_IssueBatch batch_id ;;
  match b with
  | None => raise (ValueError "Batch not found")
  | Some b =>
      b <- match BatchUpdate.vendor_id data with
           | Some v => assign_IssueBatch b (IssueBatch.set_vendor_id v)
           | None => ret b
           end ;;
      (* allow explicit null *)
      b <- assign_IssueBatch b
             (IssueBatch.set_planned_send_at (BatchUpdate.planned_send_at data)) ;;
      updated_at <- utcnow ;;
      commit ;;
      ret (b, updated_at)
  end.

(* ================================================================= *)
(** * The status catalogue and store consistency *)

(** The rows [_ensure_statuses] of [seed.py] inserts, as
    (entity type, code, name, sort order). *)
Definition status_rows : list (string * string * string * Z) :=
  [ ("application", "NEW", "Новая", 10);
    ("application", "IN_REVIEW", "На проверке", 20);
    ("application", "APPROVED", "Одобрена", 30);
    ("application", "REJECTED", "Отказ", 40);
    ("application", "IN_BATCH", "В партии", 50);
    ("batch", "CREATED", "Создана", 10);
    ("batch", "SENT", "Отправлена", 20);
    ("batch", "RECEIVED", "Получена", 30);
    ("card", "CREATED", "Карта создана", 10);
    ("card", "ISSUED", "Выпущена", 20);
    ("card", "DELIVERED", "Доставлена", 30);
    ("card", "HANDED", "Выдана клиенту", 40);
    ("card", "ACTIVATED", "Активирована", 50);
    ("card", "CLOSED", "Закрыта", 60) ].

(** The catalogue a fresh database gets from the seeder: the serial
    primary key numbers the rows from 1 in insertion order. *)
Fixpoint number_rows (next : Z) (rows : list (string * string * string * Z))
    : list RefStatus.t :=
  match rows with
  | [] => []
  | (entity_type, code, name, sort_order) :: rest =>
      RefStatus.mk next entity_type code name sort_order
        :: number_rows (next + 1) rest
  end.

Definition seeded_statuses : list RefStatus.t := number_rows 1 status_rows.

(** The status code a status id stands for in a database. *)
Definition status_code (d : Database) (sid : Z) : option string :=
  option_map RefStatus.code (find (fun r => RefStatus.id r =? sid) (ref_status d)).

(** How many rows of the catalogue carry the pair (entity type, code). *)
Definition status_count (d : Database) (entity_type code : string) : nat :=
  List.length
    (filter (fun r => String.eqb (RefStatus.entity_type r) entity_type
                      && String.eqb (RefStatus.code r) code)
            (ref_status d)).

Fixpoint distinct (l : list Z) : bool :=
  match l with
  | [] => true
  | x :: rest => negb (existsb (Z.eqb x) rest) && distinct rest
  end.

Fixpoint distinct_ids (l : list uuid) : bool :=
  match l with
  | [] => true
  | x :: rest => negb (existsb (N.eqb x) rest) && distinct_ids rest
  end.

(** The catalogue honours its primary key and holds each seeded pair
    exactly once ([uq_status_entity_code]). *)
Definition catalogue_ok (d : Database) : bool :=
  distinct (map RefStatus.id (ref_status d))
  && forallb (fun row =>
                match row with
                | (entity_type, code, _, _) =>
                    Nat.eqb (status_count d entity_type code) 1
                end) status_rows.

(** The codes of the card chain, in order. *)
Definition card_chain : list string :=
  ["CREATED"; "ISSUED"; "DELIVERED"; "HANDED"; "ACTIVATED"; "CLOSED"].

(** The state that follows [cur] in a linear chain of states. *)
Fixpoint chain_successor (chain : list string) (cur : string) : option string :=
  match chain with
  | [] => None
  | a :: rest =>
      if String.eqb a cur then hd_error rest else chain_successor rest cur
  end.

(** A card is issued or later when its status is past [CREATED]. *)
Definition issued_or_later (d : Database) (c : Card.t) : bool :=
  match status_code d (Card.status_id c) with
  | Some code => in_set code (tl card_chain)
  | None => false
  end.

(** Every card carries a status of the card chain. *)
Definition cards_in_chain (d : Database) : bool :=
  forallb (fun c =>
             match status_code d (Card.status_id c) with
             | Some code => in_set code card_chain
             | None => false
             end) (card d).

(** The applications of a batch: the query of [issue_batch_cards]. *)
Definition batch_applications (d : Database) (batch_id : uuid) : list uuid :=
  map IssueBatchItem.application_id
      (filter (fun i => N.eqb (IssueBatchItem.batch_id i) batch_id)
              (issue_batch_item d)).

(** The cards of an application. *)
Definition cards_of (d : Database) (app_id : uuid) : list Card.t :=
  filter (fun c => N.eqb (Card.application_id c) app_id) (card d).

(* ================================================================= *)
(** * A concrete run, for the examples *)

Definition empty_database : Database :=
  mkDatabase seeded_statuses [] [] [] [] [].

Definition noon : datetime := Datetime.mk 2024 5 17 12 0 0 0.

Definition world0 : World := mkWorld empty_database empty_database 0 0 0 noon.

Definition sample_request : ApplicationCreate.t :=
  ApplicationCreate.mk 77 1 1 1 1 1 None None (Some "IVAN PETROV") false None
                       "normal" [] true false None.

Definition approve_decision : ApplicationDecisionIn.t :=
  ApplicationDecisionIn.mk "approve" None None (Some 700) (Some "pass") None
                           (Some "analyst").

Definition reject_decision (reason : option Z) : ApplicationDecisionIn.t :=
  ApplicationDecisionIn.mk "reject" reason None (Some 120) (Some "fail") None
                           (Some "analyst").

(** The world a call leaves behind, however it ends. *)
Definition after {A : Type} (m : M A) (w : World) : World := snd (m w).

(** The end-to-end run of the specification: two applications are
    created and approved, a batch is created, takes both, is sent and
    is received. *)
Definition two_applications : World :=
  after (create_application sample_request None)
    (after (create_application sample_request None) world0).

Definition two_approved : World :=
  after (decide_application 2 approve_decision None)
    (after (decide_application 1 approve_decision None) two_applications).

Definition batch_filled : World :=
  after (add_batch_items 1 [1; 2]%N None)
    (after (create_batch (BatchCreate.mk 1 None) None) two_approved).

Definition batch_sent : World :=
  after (set_batch_status 1 "SENT" None) batch_filled.

Definition batch_received : World :=
  after (set_batch_status 1 "RECEIVED" None) batch_sent.

(** A store no call of the service produces but the schema admits: a
    batch whose single item points at an application that is still
    NEW. *)
Definition stranded_item : World :=
  let w := after (create_batch (BatchCreate.mk 1 None) None)
             (after (create_application sample_request None) world0) in
  let d := set_issue_batch_item [IssueBatchItem.mk 1 1 1 None None] (committed w) in
  set_session d (set_committed d w).

(** The states of a batch, in order. *)
Definition batch_chain : list string := ["CREATED"; "SENT"; "RECEIVED"].

(* ================================================================= *)
(** * Notions used by the statements *)

(** [keeps I m]: whatever way the call [m] ends, it leaves a world in
    [I] when it started in one. *)
Definition keeps {A : Type} (I : World -> Prop) (m : M A) : Prop :=
  forall w, I w -> I (snd (m w)).

(** [safe m]: the call never raises. *)
Definition safe {A : Type} (m : M A) : Prop :=
  forall w, exists a w', m w = (Returned a, w').

(** [atomic m]: when the call raises, nothing of it has been committed. *)
Definition atomic {A : Type} (m : M A) : Prop :=
  forall w e w', m w = (Raised e, w') -> committed w' = committed w.

(** [quiet m]: the call commits nothing, however it ends. *)
Definition quiet {A : Type} (m : M A) : Prop :=
  forall w, committed (snd (m w)) = committed w.

(** The card [ensure_card_for_application] inserts for an application
    that has none. *)
Definition fresh_card (w : World) (app_id : uuid) (sid : Z) : Card.t :=
  Card.mk (uuid4 (map Card.id (card (session w))))
          (make_no "CARD" (Datetime.year (clock w))
                   (Z.of_N (N.succ (card_seq w))) 6)
          app_id sid None None None None None None None None None None.

(** An application a card may be made for: it exists and is approved
    or in a batch. *)
Definition eligible (d : Database) (app_id : uuid) : bool :=
  match find (fun r => N.eqb (CardApplication.id r) app_id) (card_application d) with
  | Some a =>
      match status_code d (CardApplication.status_id a) with
      | Some code => in_set code ["APPROVED"; "IN_BATCH"]
      | None => false
      end
  | None => false
  end.

(** An application whose card is there and past [CREATED]: the loop of
    [issue_batch_cards] has nothing left to do for it. *)
Definition settled (d : Database) (app_id : uuid) : bool :=
  eligible d app_id
  && match cards_of d app_id with
     | [c] =>
         match status_code d (Card.status_id c) with
         | Some code => negb (String.eqb code "CREATED")
         | None => false
         end
     | _ => false
     end.

(** The two ways the card operations of the issuing loop change the
    session: a card in state [CREATED] is added for an application that
    had none, or the cards of one primary key move to [ISSUED]; each
    appends to the history. *)
Inductive card_step (d : Database) : Database -> Prop :=
| step_created (c : Card.t) (history : list StatusHistory.t) :
    ~ In (Card.id c) (map Card.id (card d)) ->
    cards_of d (Card.application_id c) = [] ->
    status_code d (Card.status_id c) = Some "CREATED" ->
    card_step d (set_status_history history (set_card (card d ++ [c]) d))
| step_issued (card_id : uuid) (upd : Card.t -> Card.t) (sid : Z)
    (history : list StatusHistory.t) :
    (forall x, Card.id (upd x) = Card.id x
               /\ Card.application_id (upd x) = Card.application_id x
               /\ Card.status_id (upd x) = sid) ->
    status_code d sid = Some "ISSUED" ->
    card_step d (set_status_history history
                   (set_card (update_where Card.id card_id upd (card d)) d)).

(** Any number of such steps. *)
Inductive advance (d : Database) : Database -> Prop :=
| advance_refl : advance d d
| advance_step (d1 d2 : Database) :
    advance d d1 -> card_step d1 d2 -> advance d d2.

(** Every application has at most one card ([card.application_id] is
    unique). *)
Definition one_card_each (d : Database) : bool :=
  forallb (fun c =>
             Nat.leb (List.length (cards_of d (Card.application_id c))) 1)
          (card d).

(** The cards honour their primary key. *)
Definition card_keys_ok (d : Database) : bool :=
  distinct_ids (map Card.id (card d)).

(** A store on which the cascade of [issue_batch_cards] over the
    applications [ids] cannot fail: the catalogue is consistent, every
    card has a primary key of its own and a status of the card chain, no
    application has two cards, and every application of [ids] is there
    and approved or in a batch. *)
Definition cascade_ready (d : Database) (ids : list uuid) : bool :=
  catalogue_ok d && cards_in_chain d && card_keys_ok d && one_card_each d
  && forallb (eligible d) ids.

(** The batches and the status catalogue read the same, in the session
    and in the store. *)
Definition batch_frame (batches : list IssueBatch.t) (statuses : list RefStatus.t)
    (w : World) : Prop :=
  issue_batch (committed w) = batches
  /\ issue_batch (session w) = batches
  /\ ref_status (committed w) = statuses
  /\ ref_status (session w) = statuses.

(* ================================================================= *)
(** * Numbering *)

Section Numbering.

Lemma length_append (s1 s2 : string) :
  length (s1 ++ s2) = (length s1 + length s2)%nat.
Proof.
  induction s1 as [|c s1 IH]; simpl; [reflexivity | now rewrite IH].
Qed.

Lemma length_zeros (k : nat) : length (zeros k) = k.
Proof.
  induction k as [|k IH]; simpl; [reflexivity | now rewrite IH].
Qed.

Lemma digit_value_digit_char (d : N) :
  (d < 10)%N -> digit_value (digit_char d) = Some d.
Proof.
  intros Hd. unfold digit_value, digit_char.
  rewrite N_ascii_embedding by lia.
  replace ((48 <=? 48 + d)%N) with true by (symmetry; apply N.leb_le; lia).
  replace ((48 + d <=? 57)%N) with true by (symmetry; apply N.leb_le; lia).
  cbn [andb]. f_equal. lia.
Qed.

Lemma read_digits_app (s1 s2 : string) (acc : N) :
  read_digits acc (s1 ++ s2) =
  match read_digits acc s1 with
  | Some a => read_digits a s2
  | None => None
  end.
Proof.
  revert acc. induction s1 as [|c s1 IH]; intros acc; simpl.
  - reflexivity.
  - destruct (digit_value c); [apply IH | reflexivity].
Qed.

Lemma read_digits_zeros (k : nat) (s : string) :
  read_digits 0 (zeros k ++ s) = read_digits 0 s.
Proof.
  induction k as [|k IH]; simpl; [reflexivity | exact IH].
Qed.

Lemma read_digits_digits_of (fuel : nat) :
  forall n : N, (n < 2 ^ N.of_nat fuel)%N ->
  read_digits 0 (digits_of fuel n) = Some n.
Proof.
  induction fuel as [|fuel IH]; intros n Hn.
  - simpl in Hn. assert (n = 0%N) by lia. subst n. reflexivity.
  - cbn [digits_of]. destruct (N.ltb_spec n 10) as [Hlt|Hge].
    + cbn [read_digits]. rewrite digit_value_digit_char by assumption.
      reflexivity.
    + rewrite read_digits_app, IH.
      * cbn [read_digits].
        rewrite digit_value_digit_char by (apply N.mod_lt; lia).
        f_equal. pose proof (N.div_mod n 10). lia.
      * rewrite Nat2N.inj_succ, N.pow_succ_r' in Hn.
        apply N.Div0.div_lt_upper_bound. lia.
Qed.

Lemma str_N_fuel (n : N) : (n < 2 ^ N.of_nat (S (N.to_nat (N.log2 n))))%N.
Proof.
  rewrite Nat2N.inj_succ, N2Nat.id.
  destruct (N.eq_dec n 0) as [->|Hn]; [reflexivity|].
  apply N.log2_spec. lia.
Qed.

Lemma read_digits_str_N (n : N) : read_digits 0 (str_N n) = Some n.
Proof. apply read_digits_digits_of, str_N_fuel. Qed.

Lemma length_digits_of (fuel : nat) :
  forall (n : N) (w : nat),
    (n < 10 ^ N.of_nat w)%N -> (1 <= w)%nat ->
    (length (digits_of fuel n) <= w)%nat.
Proof.
  induction fuel as [|fuel IH]; intros n w Hn Hw; cbn [digits_of].
  - simpl. lia.
  - destruct (N.ltb_spec n 10) as [Hlt|Hge].
    + simpl. lia.
    + rewrite length_append. simpl.
      destruct w as [|[|w]]; [lia | simpl in Hn; lia |].
      assert (length (digits_of fuel (n / 10)) <= S w)%nat; [|lia].
      apply IH; [|lia].
      rewrite (Nat2N.inj_succ (S w)), N.pow_succ_r' in Hn.
      apply N.Div0.div_lt_upper_bound. exact Hn.
Qed.

Lemma str_int_nonneg (n : Z) : 0 <= n -> str_int n = str_N (Z.to_N n).
Proof.
  intros Hn. unfold str_int.
  destruct (Z.ltb_spec n 0); [lia|].
  now rewrite Zabs2N.abs_N_nonneg.
Qed.

Lemma format_0d_nonneg (n : Z) (width : nat) :
  0 <= n ->
  format_0d n width = zeros (width - length (str_int n)) ++ str_int n.
Proof.
  intros Hn. unfold format_0d. rewrite (str_int_nonneg n Hn).
  destruct (Z.ltb_spec n 0); [lia|].
  now rewrite Zabs2N.abs_N_nonneg.
Qed.

End Numbering.
(* ================================================================= *)
(** * Tables *)

Section Tables.

Context {R : Type} (key : R -> uuid).

Lemma find_key_some (pk : uuid) (rows : list R) (r : R) :
  find (fun x => N.eqb (key x) pk) rows = Some r ->
  In r rows /\ key r = pk.
Proof.
  intros H. apply find_some in H. destruct H as [Hin Heq].
  split; [exact Hin | now apply N.eqb_eq].
Qed.

Lemma update_where_compose (pk : uuid) (f g : R -> R) (rows : list R) :
  (forall r, key (f r) = key r) ->
  update_where key pk g (update_where key pk f rows)
  = update_where key pk (fun r => g (f r)) rows.
Proof.
  intros Hf. unfold update_where. rewrite map_map.
  apply map_ext. intros r.
  destruct (N.eqb (key r) pk) eqn:E.
  - now rewrite Hf, E.
  - now rewrite E.
Qed.

Lemma find_update_where (pk : uuid) (f : R -> R) (rows : list R) :
  (forall r, key (f r) = key r) ->
  find (fun x => N.eqb (key x) pk) (update_where key pk f rows)
  = option_map f (find (fun x => N.eqb (key x) pk) rows).
Proof.
  intros Hf. induction rows as [|r rows IH]; simpl; [reflexivity|].
  destruct (N.eqb (key r) pk) eqn:E.
  - now rewrite Hf, E.
  - now rewrite E.
Qed.

Lemma find_update_where_other (pk pk' : uuid) (f : R -> R) (rows : list R) :
  (forall r, key (f r) = key r) -> pk' <> pk ->
  find (fun x => N.eqb (key x) pk') (update_where key pk f rows)
  = find (fun x => N.eqb (key x) pk') rows.
Proof.
  intros Hf Hne. induction rows as [|r rows IH]; simpl; [reflexivity|].
  destruct (N.eqb (key r) pk) eqn:E.
  - rewrite Hf. apply N.eqb_eq in E.
    destruct (N.eqb (key r) pk') eqn:E'; [|exact IH].
    apply N.eqb_eq in E'. congruence.
  - destruct (N.eqb (key r) pk'); [reflexivity | exact IH].
Qed.

Lemma map_update_where {C : Type} (col : R -> C) (pk : uuid) (f : R -> R)
    (rows : list R) :
  (forall r, col (f r) = col r) ->
  map col (update_where key pk f rows) = map col rows.
Proof.
  intros Hf. unfold update_where. rewrite map_map.
  apply map_ext. intros r. destruct (N.eqb (key r) pk); [apply Hf | reflexivity].
Qed.

Lemma filter_update_where (col : R -> uuid) (v pk : uuid) (f : R -> R)
    (rows : list R) :
  (forall r, col (f r) = col r) ->
  filter (fun x => N.eqb (col x) v) (update_where key pk f rows)
  = update_where key pk f (filter (fun x => N.eqb (col x) v) rows).
Proof.
  intros Hf. induction rows as [|r rows IH]; simpl; [reflexivity|].
  destruct (N.eqb (key r) pk) eqn:E.
  - rewrite Hf. destruct (N.eqb (col r) v); simpl; [rewrite E|]; now rewrite IH.
  - destruct (N.eqb (col r) v); simpl; [rewrite E|]; now rewrite IH.
Qed.

Lemma length_update_where (pk : uuid) (f : R -> R) (rows : list R) :
  List.length (update_where key pk f rows) = List.length rows.
Proof. unfold update_where. apply length_map. Qed.

End Tables.

(* ================================================================= *)
(** * Reasoning about calls *)

Ltac run :=
  cbv beta iota zeta delta
    [bind ret raise query mutate commit utcnow code_attr
     get_CardApplication get_RefStatus get_IssueBatch get_Card
     assign_CardApplication assign_IssueBatch assign_Card
     add_StatusHistory add_history
     set_session set_committed set_card_application set_issue_batch
     set_issue_batch_item set_card set_status_history
     set_app_seq set_batch_seq set_card_seq];
  cbn [committed session app_seq batch_seq card_seq clock
       ref_status card_application issue_batch issue_batch_item card
       status_history fst snd].

Section Calls.

Context {A B : Type}.

Lemma bind_returned (m : M A) (k : A -> M B) (w w' : World) (b : B) :
  bind m k w = (Returned b, w') ->
  exists a w1, m w = (Returned a, w1) /\ k a w1 = (Returned b, w').
Proof.
  unfold bind. destruct (m w) as [[a|e] w1]; [|discriminate].
  intros H. now exists a, w1.
Qed.

Lemma bind_raised (m : M A) (k : A -> M B) (w w' : World) (e : exn) :
  bind m k w = (Raised e, w') ->
  m w = (Raised e, w')
  \/ exists a w1, m w = (Returned a, w1) /\ k a w1 = (Raised e, w').
Proof.
  unfold bind. destruct (m w) as [[a|e0] w1].
  - intros H. right. now exists a, w1.
  - intros [= -> ->]. now left.
Qed.

Lemma bind_step (m : M A) (k : A -> M B) (w w1 : World) (a : A) :
  m w = (Returned a, w1) -> bind m k w = k a w1.
Proof. unfold bind. now intros ->. Qed.

End Calls.

Section Rules.

Context {A B : Type}.

Lemma keeps_bind (I : World -> Prop) (m : M A) (k : A -> M B) :
  keeps I m -> (forall a, keeps I (k a)) -> keeps I (bind m k).
Proof.
  intros Hm Hk w Hw. unfold bind. specialize (Hm w Hw).
  destruct (m w) as [[a|e] w1]; cbn [snd] in *.
  - now apply Hk.
  - exact Hm.
Qed.

Lemma quiet_bind (m : M A) (k : A -> M B) :
  quiet m -> (forall a, quiet (k a)) -> quiet (bind m k).
Proof.
  intros Hm Hk w. unfold bind. specialize (Hm w).
  destruct (m w) as [[a|e] w1]; cbn [snd] in *.
  - now rewrite Hk.
  - exact Hm.
Qed.

Lemma safe_bind (m : M A) (k : A -> M B) :
  safe m -> (forall a, safe (k a)) -> safe (bind m k).
Proof.
  intros Hm Hk w. destruct (Hm w) as (a & w1 & E).
  unfold bind. rewrite E. apply Hk.
Qed.

Lemma atomic_quiet (m : M A) : quiet m -> atomic m.
Proof. intros Hm w e w' E. specialize (Hm w). now rewrite E in Hm. Qed.

Lemma atomic_safe (m : M A) : safe m -> atomic m.
Proof.
  intros Hm w e w' E. destruct (Hm w) as (a & w1 & E'). congruence.
Qed.

(** A quiet prefix may raise; what follows it decides. *)
Lemma atomic_bind (m : M A) (k : A -> M B) :
  quiet m -> (forall a, atomic (k a)) -> atomic (bind m k).
Proof.
  intros Hm Hk w e w' E. specialize (Hm w).
  apply bind_raised in E. destruct E as [E | (a & w1 & E1 & E2)].
  - now rewrite E in Hm.
  - rewrite E1 in Hm. cbn [snd] in Hm. rewrite <- Hm. eapply Hk, E2.
Qed.

End Rules.

Lemma quiet_ret {A : Type} (a : A) : quiet (ret a).
Proof. intros w. reflexivity. Qed.

Lemma quiet_raise {A : Type} (e : exn) : quiet (@raise A e).
Proof. intros w. reflexivity. Qed.

Lemma quiet_query {A : Type} (f : Database -> A) : quiet (query f).
Proof. intros w. reflexivity. Qed.

Lemma quiet_mutate (f : Database -> Database) : quiet (mutate f).
Proof. intros w. reflexivity. Qed.

Lemma quiet_utcnow : quiet utcnow.
Proof. intros w. reflexivity. Qed.

Lemma quiet_next_seq (seq_name : string) : quiet (next_seq seq_name).
Proof.
  intros w. unfold next_seq.
  repeat match goal with |- context [if ?b then _ else _] => destruct b end;
    reflexivity.
Qed.

Lemma quiet_scalar_one {A : Type} (rows : list A) : quiet (scalar_one rows).
Proof. intros w. destruct rows as [|r [|r' rows]]; reflexivity. Qed.

Lemma quiet_scalar_one_or_none {A : Type} (rows : list A) :
  quiet (scalar_one_or_none rows).
Proof. intros w. destruct rows as [|r [|r' rows]]; reflexivity. Qed.

Lemma quiet_code_attr (s : option RefStatus.t) : quiet (code_attr s).
Proof. intros w. destruct s; reflexivity. Qed.

Lemma safe_ret {A : Type} (a : A) : safe (ret a).
Proof. intros w. now exists a, w. Qed.

Lemma safe_commit : safe commit.
Proof. intros w. now exists tt, (set_committed (session w) w). Qed.

Lemma safe_mutate (f : Database -> Database) : safe (mutate f).
Proof. intros w. now exists tt, (set_session (f (session w)) w). Qed.

Lemma safe_utcnow : safe utcnow.
Proof. intros w. now exists (clock w), w. Qed.

Lemma safe_query {A : Type} (f : Database -> A) : safe (query f).
Proof. intros w. now exists (f (session w)), w. Qed.

Create HintDb quiet.
Create HintDb safe.
Create HintDb frame.

#[local] Hint Resolve quiet_ret quiet_raise quiet_query quiet_mutate quiet_utcnow
  quiet_next_seq quiet_scalar_one quiet_scalar_one_or_none quiet_code_attr
  : quiet.
#[local] Hint Resolve safe_ret safe_commit safe_mutate safe_utcnow safe_query
  : safe.

(** Decomposes a goal [quiet m] along the binds and branches of [m]. *)
Ltac quiet_tac :=
  repeat first
    [ solve [auto with quiet]
    | apply quiet_bind; [|intros ?]
    | match goal with
      | |- quiet (match ?x with _ => _ end) => destruct x
      | |- quiet (if ?b then _ else _) => destruct b
      end ].

Ltac safe_tac :=
  repeat first
    [ solve [auto with safe]
    | apply safe_bind; [|intros ?] ].

Lemma quiet_get_status_id (entity_type code : string) :
  quiet (get_status_id entity_type code).
Proof. unfold get_status_id. quiet_tac. Qed.

Lemma quiet_add_history (entity_type : string) (entity_id : uuid)
    (status_id : Z) (by_ : option string) :
  quiet (add_history entity_type entity_id status_id by_).
Proof. unfold add_history, add_StatusHistory. quiet_tac. Qed.

Lemma safe_add_history (entity_type : string) (entity_id : uuid)
    (status_id : Z) (by_ : option string) :
  safe (add_history entity_type entity_id status_id by_).
Proof. unfold add_history, add_StatusHistory. safe_tac. Qed.

#[local] Hint Resolve quiet_get_status_id quiet_add_history : quiet.
#[local] Hint Resolve safe_add_history : safe.

Lemma quiet_set_status (entity_type : string) (entity_id : uuid)
    (status_code : string) (by_ : option string) :
  quiet (set_status entity_type entity_id status_code by_).
Proof. unfold set_status. quiet_tac. Qed.

Lemma quiet_assign_CardApplication (a : CardApplication.t)
    (f : CardApplication.t -> CardApplication.t) :
  quiet (assign_CardApplication a f).
Proof. unfold assign_CardApplication. quiet_tac. Qed.

Lemma quiet_assign_IssueBatch (b : IssueBatch.t) (f : IssueBatch.t -> IssueBatch.t) :
  quiet (assign_IssueBatch b f).
Proof. unfold assign_IssueBatch. quiet_tac. Qed.

Lemma quiet_assign_Card (c : Card.t) (f : Card.t -> Card.t) :
  quiet (assign_Card c f).
Proof. unfold assign_Card. quiet_tac. Qed.

Lemma quiet_add_CardApplication (mk_row : uuid -> CardApplication.t) :
  quiet (add_CardApplication mk_row).
Proof. unfold add_CardApplication. quiet_tac. Qed.

Lemma quiet_add_IssueBatch (mk_row : uuid -> IssueBatch.t) :
  quiet (add_IssueBatch mk_row).
Proof. unfold add_IssueBatch. quiet_tac. Qed.

Lemma quiet_add_IssueBatchItem (mk_row : uuid -> IssueBatchItem.t) :
  quiet (add_IssueBatchItem mk_row).
Proof. unfold add_IssueBatchItem. quiet_tac. Qed.

Lemma quiet_add_Card (mk_row : uuid -> Card.t) : quiet (add_Card mk_row).
Proof. unfold add_Card. quiet_tac. Qed.

Lemma quiet_get_CardApplication (pk : uuid) : quiet (get_CardApplication pk).
Proof. unfold get_CardApplication. quiet_tac. Qed.

Lemma quiet_get_IssueBatch (pk : uuid) : quiet (get_IssueBatch pk).
Proof. unfold get_IssueBatch. quiet_tac. Qed.

Lemma quiet_get_Card (pk : uuid) : quiet (get_Card pk).
Proof. unfold get_Card. quiet_tac. Qed.

Lemma quiet_get_RefStatus (pk : Z) : quiet (get_RefStatus pk).
Proof. unfold get_RefStatus. quiet_tac. Qed.

#[local] Hint Resolve quiet_set_status quiet_assign_CardApplication
  quiet_assign_IssueBatch quiet_assign_Card quiet_add_CardApplication
  quiet_add_IssueBatch quiet_add_IssueBatchItem quiet_add_Card
  quiet_get_CardApplication quiet_get_IssueBatch quiet_get_Card
  quiet_get_RefStatus : quiet.

Lemma quiet_for_each {A : Type} (l : list A) (body : A -> M unit) :
  (forall x, quiet (body x)) -> quiet (for_each l body).
Proof.
  intros Hbody. induction l as [|x l IH]; cbn [for_each].
  - apply quiet_ret.
  - apply quiet_bind; [apply Hbody | intros _; exact IH].
Qed.

Lemma safe_assign_CardApplication (a : CardApplication.t)
    (f : CardApplication.t -> CardApplication.t) :
  safe (assign_CardApplication a f).
Proof. unfold assign_CardApplication. safe_tac. Qed.

Lemma safe_assign_IssueBatch (b : IssueBatch.t) (f : IssueBatch.t -> IssueBatch.t) :
  safe (assign_IssueBatch b f).
Proof. unfold assign_IssueBatch. safe_tac. Qed.

Lemma safe_assign_Card (c : Card.t) (f : Card.t -> Card.t) :
  safe (assign_Card c f).
Proof. unfold assign_Card. safe_tac. Qed.

#[local] Hint Resolve safe_assign_CardApplication safe_assign_IssueBatch
  safe_assign_Card : safe.

(** Decomposes a goal [atomic m]: quiet steps are peeled off until what
    remains cannot raise. *)
Ltac atomic_tac :=
  repeat first
    [ solve [apply atomic_quiet; quiet_tac]
    | solve [apply atomic_safe; safe_tac]
    | apply atomic_bind; [solve [quiet_tac] | intros ?]
    | match goal with
      | |- atomic (match ?x with _ => _ end) => destruct x
      | |- atomic (if ?b then _ else _) => destruct b
      end ].

Lemma atomic_update_application (app_id : uuid) (data : ApplicationUpdate.t)
    (by_ : option string) :
  atomic (update_application app_id data by_).
Proof. unfold update_application. atomic_tac. Qed.

Lemma atomic_decide_application (app_id : uuid) (data : ApplicationDecisionIn.t)
    (by_ : option string) :
  atomic (decide_application app_id data by_).
Proof. unfold decide_application. atomic_tac. Qed.

Lemma atomic_create_application (data : ApplicationCreate.t) (by_ : option string) :
  atomic (create_application data by_).
Proof. unfold create_application. atomic_tac. Qed.

Lemma atomic_create_batch (data : BatchCreate.t) (by_ : option string) :
  atomic (create_batch data by_).
Proof. unfold create_batch. atomic_tac. Qed.

Lemma atomic_add_batch_items (batch_id : uuid) (application_ids : list uuid)
    (by_ : option string) :
  atomic (add_batch_items batch_id application_ids by_).
Proof.
  unfold add_batch_items.
  apply atomic_bind; [quiet_tac | intros [b|]]; [|atomic_tac].
  apply atomic_bind; [quiet_tac | intros approved_id].
  apply atomic_bind; [quiet_tac | intros in_batch_id].
  apply atomic_bind; [| intros ?; atomic_tac].
  apply quiet_for_each. intros aid. quiet_tac.
Qed.

Lemma atomic_update_batch (batch_id : uuid) (data : BatchUpdate.t)
    (by_ : option string) :
  atomic (update_batch batch_id data by_).
Proof. unfold update_batch. atomic_tac. Qed.

Lemma atomic_ensure_card_for_application (app_id : uuid) (by_ : option string) :
  atomic (ensure_card_for_application app_id by_).
Proof. unfold ensure_card_for_application. atomic_tac. Qed.

Lemma atomic_card_event (card_id : uuid) (event : string) (by_ : option string) :
  atomic (card_event card_id event by_).
Proof. unfold card_event. atomic_tac. Qed.

Lemma atomic_set_batch_status (batch_id : uuid) (status_code : string)
    (by_ : option string) :
  String.eqb status_code "RECEIVED" = false ->
  atomic (set_batch_status batch_id status_code by_).
Proof. intros H. unfold set_batch_status. rewrite H. atomic_tac. Qed.

(* ================================================================= *)
(** * The status catalogue *)

Lemma status_code_find (d : Database) (sid : Z) (code : string) :
  status_code d sid = Some code ->
  exists r, find (fun r => RefStatus.id r =? sid) (ref_status d) = Some r
            /\ RefStatus.code r = code.
Proof.
  unfold status_code. destruct (find _ _) as [r|]; simpl; [|discriminate].
  intros [= <-]. now exists r.
Qed.

Lemma find_status_code (d : Database) (sid : Z) (r : RefStatus.t) :
  find (fun r => RefStatus.id r =? sid) (ref_status d) = Some r ->
  status_code d sid = Some (RefStatus.code r).
Proof. unfold status_code. now intros ->. Qed.

Lemma distinct_find (rows : list RefStatus.t) (r : RefStatus.t) :
  distinct (map RefStatus.id rows) = true -> In r rows ->
  find (fun x => RefStatus.id x =? RefStatus.id r) rows = Some r.
Proof.
  induction rows as [|x rows IH]; intros Hd Hin; [contradiction|].
  cbn [map distinct] in Hd. apply andb_true_iff in Hd. destruct Hd as [Hx Hd].
  cbn [find]. destruct Hin as [->|Hin].
  - now rewrite Z.eqb_refl.
  - destruct (Z.eqb_spec (RefStatus.id x) (RefStatus.id r)) as [E|_].
    + exfalso. apply negb_true_iff in Hx.
      assert (existsb (Z.eqb (RefStatus.id x)) (map RefStatus.id rows) = true);
        [|congruence].
      apply existsb_exists. exists (RefStatus.id r). split.
      * now apply in_map.
      * now apply Z.eqb_eq.
    + now apply IH.
Qed.

Lemma catalogue_code (d : Database) (r : RefStatus.t) :
  catalogue_ok d = true -> In r (ref_status d) ->
  status_code d (RefStatus.id r) = Some (RefStatus.code r).
Proof.
  intros Hok Hin. apply andb_true_iff in Hok. destruct Hok as [Hd _].
  apply find_status_code. now apply distinct_find.
Qed.

Lemma catalogue_row (d : Database) (entity_type code name : string) (order : Z) :
  catalogue_ok d = true ->
  In (entity_type, code, name, order) status_rows ->
  exists r,
    filter (fun r => String.eqb (RefStatus.entity_type r) entity_type
                     && String.eqb (RefStatus.code r) code)
           (ref_status d) = [r].
Proof.
  intros Hok Hin. apply andb_true_iff in Hok. destruct Hok as [_ Hall].
  rewrite forallb_forall in Hall. specialize (Hall _ Hin). cbn beta iota in Hall.
  apply Nat.eqb_eq in Hall. unfold status_count in Hall.
  destruct (filter _ _) as [|r [|r' rows]]; try discriminate. now exists r.
Qed.

Lemma filter_status_row (d : Database) (entity_type code : string)
    (r : RefStatus.t) (rows : list RefStatus.t) :
  filter (fun r => String.eqb (RefStatus.entity_type r) entity_type
                   && String.eqb (RefStatus.code r) code)
         (ref_status d) = r :: rows ->
  In r (ref_status d) /\ RefStatus.entity_type r = entity_type
  /\ RefStatus.code r = code.
Proof.
  intros H. assert (Hin : In r (r :: rows)) by now left.
  rewrite <- H in Hin. apply filter_In in Hin. destruct Hin as [Hin Hb].
  apply andb_true_iff in Hb. destruct Hb as [He Hc].
  apply String.eqb_eq in He, Hc. auto.
Qed.

Lemma get_status_id_run (entity_type code : string) (w : World) (r : RefStatus.t) :
  filter (fun r => String.eqb (RefStatus.entity_type r) entity_type
                   && String.eqb (RefStatus.code r) code)
         (ref_status (session w)) = [r] ->
  get_status_id entity_type code w = (Returned (RefStatus.id r), w).
Proof. intros H. unfold get_status_id. run. now rewrite H. Qed.

Lemma get_status_id_returned (entity_type code : string) (w w' : World) (sid : Z) :
  get_status_id entity_type code w = (Returned sid, w') ->
  w' = w /\
  exists r,
    filter (fun r => String.eqb (RefStatus.entity_type r) entity_type
                     && String.eqb (RefStatus.code r) code)
           (ref_status (session w)) = [r]
    /\ RefStatus.id r = sid.
Proof.
  unfold get_status_id. run.
  destruct (filter _ _) as [|r [|r' rows]]; cbn [scalar_one]; run;
    try discriminate.
  intros [= <- <-]. split; [reflexivity|]. now exists r.
Qed.

Lemma get_status_id_world (entity_type code : string) (w : World) :
  snd (get_status_id entity_type code w) = w.
Proof.
  unfold get_status_id. run.
  destruct (filter _ _) as [|r [|r' rows]]; reflexivity.
Qed.

(* ================================================================= *)
(** * Cards: one event *)

(** Evaluates the comparisons between string literals in the goal. *)
Ltac eval_eqb :=
  repeat match goal with
  | |- context [String.eqb ?a ?b] =>
      let v := eval vm_compute in (String.eqb a b) in
      lazymatch v with
      | true => change (String.eqb a b) with true
      | false => change (String.eqb a b) with false
      end
  end.

(** The allowed pairs of [CARD_ALLOWED]. *)
Lemma CARD_ALLOWED_pairs (cur next : string) :
  in_set next (dict_get_default CARD_ALLOWED cur []) = true ->
  (cur, next) = ("CREATED", "ISSUED") \/ (cur, next) = ("ISSUED", "DELIVERED")
  \/ (cur, next) = ("DELIVERED", "HANDED") \/ (cur, next) = ("HANDED", "ACTIVATED")
  \/ (cur, next) = ("ACTIVATED", "CLOSED").
Proof.
  unfold dict_get_default, CARD_ALLOWED, dict_get, in_set.
  repeat match goal with
  | |- context [String.eqb ?k cur] =>
      destruct (String.eqb_spec k cur) as [<-|?]
  end; cbn [existsb orb]; rewrite ?orb_false_r; try discriminate;
  intros H; apply String.eqb_eq in H; subst; tauto.
Qed.

(** Runs [card_event] on a card found in state [cur] up to the
    catalogue lookup of the target state. *)
Ltac card_event_steps ss clk c Hfind Hs Hmap Hallowed Hrow :=
  unfold card_event; run; rewrite Hfind; run; rewrite Hs; run;
  rewrite Hmap, Hallowed; cbn [negb];
  apply CARD_ALLOWED_pairs in Hallowed;
  match type of Hmap with
  | _ = Some ?next =>
      assert (Hnext : In next ["ISSUED"; "DELIVERED"; "HANDED"; "ACTIVATED";
                               "CLOSED"])
        by (cbn [In]; intuition congruence);
      clear Hallowed; cbn [In] in Hnext;
      destruct Hnext as [<-|[<-|[<-|[<-|[<-|[]]]]]]
  end; eval_eqb;
  [ destruct (truthy_str (Card.pan_masked (Card.set_issued_at (Some clk) c)));
    cbn [negb]; unfold next_seq; eval_eqb; run;
    match goal with
    | |- context [truthy_int (Card.expiry_month ?a)] =>
        destruct (truthy_int (Card.expiry_month a))
    end; cbn [negb]; run;
    match goal with
    | |- context [truthy_int (Card.expiry_year ?a)] =>
        destruct (truthy_int (Card.expiry_year a))
    end; cbn [negb]; run
  | .. ];
  unfold set_status, get_status_id; run; rewrite Hrow; cbn [scalar_one]; run.

Lemma card_event_run (w : World) (card_id : uuid) (event : string)
    (by_ : option string) (c : Card.t) (cur next : string) (r : RefStatus.t) :
  find (fun x => N.eqb (Card.id x) card_id) (card (session w)) = Some c ->
  status_code (session w) (Card.status_id c) = Some cur ->
  dict_get event_mapping event = Some next ->
  in_set next (dict_get_default CARD_ALLOWED cur []) = true ->
  filter (fun r => String.eqb (RefStatus.entity_type r) "card"
                   && String.eqb (RefStatus.code r) next)
         (ref_status (session w)) = [r] ->
  exists (upd : Card.t -> Card.t) (w' : World),
    card_event card_id event by_ w = (Returned (upd c), w')
    /\ card (session w') = update_where Card.id card_id upd (card (session w))
    /\ (forall x, Card.id (upd x) = Card.id x
                /\ Card.application_id (upd x) = Card.application_id x
                /\ Card.card_no (upd x) = Card.card_no x
                /\ Card.status_id (upd x) = RefStatus.id r)
    /\ ref_status (session w') = ref_status (session w)
    /\ card_application (session w') = card_application (session w)
    /\ issue_batch (session w') = issue_batch (session w)
    /\ issue_batch_item (session w') = issue_batch_item (session w)
    /\ status_history (session w')
       = (status_history (session w)
          ++ [StatusHistory.mk (uuid4 (map StatusHistory.id (status_history (session w))))
                               "card" card_id (RefStatus.id r) (clock w) by_])%list
    /\ committed w' = session w'
    /\ clock w' = clock w.
Proof.
  intros Hfind Hcur Hmap Hallowed Hrow.
  apply status_code_find in Hcur. destruct Hcur as (s & Hs & <-).
  pose proof (find_key_some Card.id _ _ _ Hfind) as [_ Hid].
  destruct w as [cm ss s1 s2 s3 clk]. cbn [session clock] in *.
  card_event_steps ss clk c Hfind Hs Hmap Hallowed Hrow;
    cbn [Card.id Card.set_issued_at Card.set_pan_masked Card.set_expiry_month
         Card.set_expiry_year Card.set_delivered_at Card.set_handed_at
         Card.set_activated_at Card.set_closed_at Card.set_status_id];
    rewrite Hid;
    repeat rewrite (update_where_compose Card.id) by (intros; reflexivity);
    match goal with
    | |- context [update_where Card.id card_id ?f (card ss)] => exists f
    end;
    eexists; (split; [reflexivity|]);
    cbn [session committed card ref_status card_application issue_batch
         issue_batch_item status_history clock];
    repeat split; reflexivity.
Qed.

(** Without exactly one catalogue row for the target state the event
    raises, from [scalar_one]. *)
Lemma card_event_no_row (w : World) (card_id : uuid) (event : string)
    (by_ : option string) (c : Card.t) (cur next : string)
    (rows : list RefStatus.t) :
  find (fun x => N.eqb (Card.id x) card_id) (card (session w)) = Some c ->
  status_code (session w) (Card.status_id c) = Some cur ->
  dict_get event_mapping event = Some next ->
  in_set next (dict_get_default CARD_ALLOWED cur []) = true ->
  filter (fun r => String.eqb (RefStatus.entity_type r) "card"
                   && String.eqb (RefStatus.code r) next)
         (ref_status (session w)) = rows ->
  List.length rows <> 1%nat ->
  exists e w', card_event card_id event by_ w = (Raised e, w').
Proof.
  intros Hfind Hcur Hmap Hallowed Hrow Hlen.
  apply status_code_find in Hcur. destruct Hcur as (s & Hs & <-).
  destruct w as [cm ss s1 s2 s3 clk]. cbn [session clock] in *.
  destruct rows as [|r [|r' rows]]; [|cbn in Hlen; congruence|];
    card_event_steps ss clk c Hfind Hs Hmap Hallowed Hrow; eauto.
Qed.

Lemma CARD_ALLOWED_chain (cur next : string) :
  in_set next (dict_get_default CARD_ALLOWED cur []) = true
  <-> chain_successor card_chain cur = Some next.
Proof.
  unfold dict_get_default, CARD_ALLOWED, dict_get, in_set, card_chain,
    chain_successor, hd_error.
  repeat match goal with
  | |- context [String.eqb ?k cur] =>
      destruct (String.eqb_spec k cur) as [<-|?]
  end; cbn [existsb orb]; rewrite ?orb_false_r;
  try (split; [intros H; apply String.eqb_eq in H; now subst
              | intros [= <-]; apply String.eqb_refl]);
  split; discriminate.
Qed.

Lemma card_event_unknown (w : World) (card_id : uuid) (event : string)
    (by_ : option string) (c : Card.t) (cur : string) :
  find (fun x => N.eqb (Card.id x) card_id) (card (session w)) = Some c ->
  status_code (session w) (Card.status_id c) = Some cur ->
  dict_get event_mapping event = None ->
  card_event card_id event by_ w = (Raised (ValueError "Invalid event"), w).
Proof.
  intros Hfind Hcur Hmap.
  apply status_code_find in Hcur. destruct Hcur as (s & Hs & <-).
  unfold card_event. run. rewrite Hfind. run. rewrite Hs. run.
  now rewrite Hmap.
Qed.

Lemma card_event_refused (w : World) (card_id : uuid) (event : string)
    (by_ : option string) (c : Card.t) (cur next : string) :
  find (fun x => N.eqb (Card.id x) card_id) (card (session w)) = Some c ->
  status_code (session w) (Card.status_id c) = Some cur ->
  dict_get event_mapping event = Some next ->
  in_set next (dict_get_default CARD_ALLOWED cur []) = false ->
  card_event card_id event by_ w
  = (Raised (ValueError ("Transition " ++ cur ++ " -> " ++ next
                         ++ " is not allowed")), w).
Proof.
  intros Hfind Hcur Hmap Hno.
  apply status_code_find in Hcur. destruct Hcur as (s & Hs & <-).
  unfold card_event. run. rewrite Hfind. run. rewrite Hs. run.
  now rewrite Hmap, Hno.
Qed.

(** The only targets of [event_mapping] are the five states past
    [CREATED], each held once by a consistent catalogue. *)
Lemma event_mapping_row (d : Database) (event next : string) :
  catalogue_ok d = true ->
  dict_get event_mapping event = Some next ->
  exists r,
    filter (fun r => String.eqb (RefStatus.entity_type r) "card"
                     && String.eqb (RefStatus.code r) next)
           (ref_status d) = [r].
Proof.
  intros Hok. unfold event_mapping, dict_get.
  repeat match goal with
  | |- context [String.eqb ?k event] => destruct (String.eqb k event)
  end; intros [= <-];
  (eapply catalogue_row; [exact Hok | cbn [status_rows In]; eauto 20]).
Qed.

(* ================================================================= *)
(** * Cards: creation on demand *)

Lemma filter_nil_existsb {R : Type} (p : R -> bool) (rows : list R) :
  filter p rows = [] -> existsb p rows = false.
Proof.
  induction rows as [|x rows IH]; cbn [filter existsb]; [reflexivity|].
  destruct (p x); [discriminate | exact IH].
Qed.

Lemma ensure_card_refused (w : World) (app_id : uuid) (by_ : option string)
    (a : CardApplication.t) (code : string) :
  find (fun r => N.eqb (CardApplication.id r) app_id)
       (card_application (session w)) = Some a ->
  status_code (session w) (CardApplication.status_id a) = Some code ->
  in_set code ["APPROVED"; "IN_BATCH"] = false ->
  ensure_card_for_application app_id by_ w
  = (Raised (ValueError
       "Card can be created only for APPROVED/IN_BATCH applications"), w).
Proof.
  intros Hfind Hcode Hset.
  apply status_code_find in Hcode. destruct Hcode as (s & Hs & <-).
  unfold ensure_card_for_application. run. rewrite Hfind. run. rewrite Hs. run.
  now rewrite Hset.
Qed.

Lemma ensure_card_existing (w : World) (app_id : uuid) (by_ : option string)
    (a : CardApplication.t) (code : string) (c : Card.t) :
  find (fun r => N.eqb (CardApplication.id r) app_id)
       (card_application (session w)) = Some a ->
  status_code (session w) (CardApplication.status_id a) = Some code ->
  in_set code ["APPROVED"; "IN_BATCH"] = true ->
  cards_of (session w) app_id = [c] ->
  ensure_card_for_application app_id by_ w = (Returned c, w).
Proof.
  intros Hfind Hcode Hset Hcards.
  apply status_code_find in Hcode. destruct Hcode as (s & Hs & <-).
  unfold ensure_card_for_application. run. rewrite Hfind. run. rewrite Hs. run.
  rewrite Hset. cbn [negb]. unfold cards_of in Hcards. run. now rewrite Hcards.
Qed.

Lemma ensure_card_new (w : World) (app_id : uuid) (by_ : option string)
    (a : CardApplication.t) (code : string) (r : RefStatus.t) :
  find (fun r => N.eqb (CardApplication.id r) app_id)
       (card_application (session w)) = Some a ->
  status_code (session w) (CardApplication.status_id a) = Some code ->
  in_set code ["APPROVED"; "IN_BATCH"] = true ->
  cards_of (session w) app_id = [] ->
  filter (fun r => String.eqb (RefStatus.entity_type r) "card"
                   && String.eqb (RefStatus.code r) "CREATED")
         (ref_status (session w)) = [r] ->
  exists w',
    ensure_card_for_application app_id by_ w
    = (Returned (fresh_card w app_id (RefStatus.id r)), w')
    /\ card (session w')
       = (card (session w) ++ [fresh_card w app_id (RefStatus.id r)])%list
    /\ ref_status (session w') = ref_status (session w)
    /\ card_application (session w') = card_application (session w)
    /\ issue_batch (session w') = issue_batch (session w)
    /\ issue_batch_item (session w') = issue_batch_item (session w)
    /\ status_history (session w')
       = (status_history (session w)
          ++ [StatusHistory.mk
                (uuid4 (map StatusHistory.id (status_history (session w))))
                "card" (uuid4 (map Card.id (card (session w))))
                (RefStatus.id r) (clock w) by_])%list
    /\ committed w' = session w'
    /\ clock w' = clock w.
Proof.
  intros Hfind Hcode Hset Hcards Hrow.
  apply status_code_find in Hcode. destruct Hcode as (s & Hs & <-).
  unfold ensure_card_for_application, fresh_card.
  destruct w as [cm ss s1 s2 s3 clk]. cbn [session clock card_seq] in *. run.
  rewrite Hfind. run. rewrite Hs. run.
  rewrite Hset. cbn [negb]. unfold cards_of in Hcards. run. rewrite Hcards.
  cbn [scalar_one_or_none]. run. unfold next_seq. eval_eqb. run.
  unfold get_status_id. run. rewrite Hrow. cbn [scalar_one]. run.
  unfold add_Card. run. cbn [Card.application_id].
  rewrite (filter_nil_existsb _ _ Hcards). run.
  eexists. split; [reflexivity|].
  cbn [session committed card ref_status card_application issue_batch
       issue_batch_item status_history clock Card.id].
  repeat split; reflexivity.
Qed.

Lemma ensure_card_returned (w w' : World) (app_id : uuid) (by_ : option string)
    (c : Card.t) :
  ensure_card_for_application app_id by_ w = (Returned c, w') ->
  exists a code,
    find (fun r => N.eqb (CardApplication.id r) app_id)
         (card_application (session w)) = Some a
    /\ status_code (session w) (CardApplication.status_id a) = Some code
    /\ in_set code ["APPROVED"; "IN_BATCH"] = true
    /\ ((cards_of (session w) app_id = [c] /\ w' = w)
        \/ (cards_of (session w) app_id = []
            /\ exists r,
                 filter (fun r => String.eqb (RefStatus.entity_type r) "card"
                                  && String.eqb (RefStatus.code r) "CREATED")
                        (ref_status (session w)) = [r]
                 /\ c = fresh_card w app_id (RefStatus.id r))).
Proof.
  intros H.
  destruct (find (fun r => N.eqb (CardApplication.id r) app_id)
                 (card_application (session w))) as [a|] eqn:Hfind.
  2:{ unfold ensure_card_for_application in H. revert H. run.
      rewrite Hfind. run. discriminate. }
  destruct (find (fun r => RefStatus.id r =? CardApplication.status_id a)
                 (ref_status (session w))) as [s|] eqn:Hs.
  2:{ unfold ensure_card_for_application in H. revert H. run.
      rewrite Hfind. run. rewrite Hs. run. discriminate. }
  pose proof (find_status_code _ _ _ Hs) as Hcode.
  destruct (in_set (RefStatus.code s) ["APPROVED"; "IN_BATCH"]) eqn:Hset.
  2:{ rewrite (ensure_card_refused w app_id by_ a _ Hfind Hcode Hset) in H.
      discriminate. }
  exists a, (RefStatus.code s).
  split; [reflexivity|]. split; [assumption|]. split; [assumption|].
  destruct (cards_of (session w) app_id) as [|c0 [|c1 rest]] eqn:Hcards.
  - right. split; [reflexivity|].
    destruct (filter (fun r => String.eqb (RefStatus.entity_type r) "card"
                               && String.eqb (RefStatus.code r) "CREATED")
                     (ref_status (session w))) as [|r [|r' rows]] eqn:Hrow.
    + exfalso. unfold ensure_card_for_application in H. revert H. run.
      rewrite Hfind. run. rewrite Hs. run. rewrite Hset. cbn [negb].
      unfold cards_of in Hcards. rewrite Hcards. cbn [scalar_one_or_none]. run.
      unfold next_seq. eval_eqb. run. unfold get_status_id. run.
      rewrite Hrow. cbn [scalar_one]. run. discriminate.
    + exists r. split; [reflexivity|].
      destruct (ensure_card_new w app_id by_ a _ r Hfind Hcode Hset Hcards Hrow)
        as (w1 & E & _).
      congruence.
    + exfalso. unfold ensure_card_for_application in H. revert H. run.
      rewrite Hfind. run. rewrite Hs. run. rewrite Hset. cbn [negb].
      unfold cards_of in Hcards. rewrite Hcards. cbn [scalar_one_or_none]. run.
      unfold next_seq. eval_eqb. run. unfold get_status_id. run.
      rewrite Hrow. cbn [scalar_one]. run. discriminate.
  - left.
    rewrite (ensure_card_existing w app_id by_ a _ c0 Hfind Hcode Hset Hcards) in H.
    now injection H as <- <-.
  - exfalso. unfold ensure_card_for_application in H. revert H. run.
    rewrite Hfind. run. rewrite Hs. run. rewrite Hset. cbn [negb].
    unfold cards_of in Hcards. rewrite Hcards. cbn [scalar_one_or_none]. run.
    discriminate.
Qed.

(* ================================================================= *)
(** * The issuing loop *)

Lemma database_eq (d d' : Database) :
  ref_status d' = ref_status d ->
  card_application d' = card_application d ->
  issue_batch d' = issue_batch d ->
  issue_batch_item d' = issue_batch_item d ->
  card d' = card d ->
  status_history d' = status_history d ->
  d' = d.
Proof.
  destruct d, d'. cbn. intros. now subst.
Qed.

Lemma status_code_ext (d d' : Database) (sid : Z) :
  ref_status d' = ref_status d -> status_code d' sid = status_code d sid.
Proof. unfold status_code. now intros ->. Qed.

Lemma catalogue_ok_ext (d d' : Database) :
  ref_status d' = ref_status d -> catalogue_ok d' = catalogue_ok d.
Proof. unfold catalogue_ok, status_count. now intros ->. Qed.

Lemma eligible_ext (d d' : Database) (app_id : uuid) :
  ref_status d' = ref_status d ->
  card_application d' = card_application d ->
  eligible d' app_id = eligible d app_id.
Proof. unfold eligible, status_code. now intros -> ->. Qed.

Lemma one_card_each_spec (d : Database) :
  one_card_each d = true
  <-> forall app_id, (List.length (cards_of d app_id) <= 1)%nat.
Proof.
  unfold one_card_each. rewrite forallb_forall. split.
  - intros H app_id.
    destruct (cards_of d app_id) as [|c rest] eqn:E; [cbn; lia|].
    assert (Hin : In c (cards_of d app_id)) by (rewrite E; now left).
    unfold cards_of in Hin. apply filter_In in Hin. destruct Hin as [Hin Happ].
    apply N.eqb_eq in Happ. specialize (H c Hin). apply Nat.leb_le in H.
    now rewrite Happ, E in H.
  - intros H c _. apply Nat.leb_le, H.
Qed.

Lemma distinct_ids_snoc (l : list uuid) (x : uuid) :
  distinct_ids l = true -> ~ In x l -> distinct_ids (l ++ [x]) = true.
Proof.
  unfold uuid in *.
  induction l as [|y l IH]; cbn [distinct_ids app]; intros Hd Hx; [reflexivity|].
  apply andb_true_iff in Hd. destruct Hd as [Hy Hd].
  apply andb_true_iff. split.
  - apply negb_true_iff. apply negb_true_iff in Hy.
    rewrite existsb_app, Hy. cbn. rewrite orb_false_r.
    apply N.eqb_neq. intros ->. apply Hx. now left.
  - apply IH; [assumption|]. intros Hin. apply Hx. now right.
Qed.

Lemma uuid4_above (used : list uuid) (x : uuid) :
  In x used -> (x < uuid4 used)%N.
Proof.
  unfold uuid4. induction used as [|y used IH]; cbn [In fold_right];
    [contradiction|].
  intros [->|Hin]; [lia|]. specialize (IH Hin). lia.
Qed.

Lemma uuid4_fresh (used : list uuid) : ~ In (uuid4 used) used.
Proof. intros Hin. apply uuid4_above in Hin. lia. Qed.

Section CardStep.

Variables d d' : Database.
Hypothesis Hstep : card_step d d'.

Lemma card_step_frame :
  ref_status d' = ref_status d
  /\ card_application d' = card_application d
  /\ issue_batch d' = issue_batch d
  /\ issue_batch_item d' = issue_batch_item d.
Proof. destruct Hstep; cbn; auto. Qed.

Lemma card_step_status_code (sid : Z) : status_code d' sid = status_code d sid.
Proof. apply status_code_ext, card_step_frame. Qed.

Lemma card_step_eligible (app_id : uuid) : eligible d' app_id = eligible d app_id.
Proof. apply eligible_ext; apply card_step_frame. Qed.

Lemma card_step_cards_of (app_id : uuid) :
  (exists c, d' = d' /\ cards_of d (Card.application_id c) = []
             /\ status_code d (Card.status_id c) = Some "CREATED"
             /\ cards_of d' app_id
                = (cards_of d app_id
                   ++ (if N.eqb (Card.application_id c) app_id then [c] else []))%list)
  \/ (exists card_id upd sid,
        (forall x, Card.id (upd x) = Card.id x
                   /\ Card.application_id (upd x) = Card.application_id x
                   /\ Card.status_id (upd x) = sid)
        /\ status_code d sid = Some "ISSUED"
        /\ cards_of d' app_id
           = update_where Card.id card_id upd (cards_of d app_id)).
Proof.
  destruct Hstep as [c history Hfresh Hnone Hcode
                   | card_id upd sid history Hupd Hcode].
  - left. exists c. repeat (split; [assumption || reflexivity|]).
    unfold cards_of. cbn. rewrite filter_app. cbn.
    now destruct (N.eqb (Card.application_id c) app_id).
  - right. exists card_id, upd, sid. repeat (split; [assumption|]).
    unfold cards_of. cbn. apply filter_update_where. intros x. apply Hupd.
Qed.

Lemma card_step_settled (app_id : uuid) :
  settled d app_id = true -> settled d' app_id = true.
Proof.
  unfold settled. rewrite card_step_eligible.
  intros H. apply andb_true_iff in H. destruct H as [-> H]. cbn [andb].
  destruct (cards_of d app_id) as [|c0 [|c1 rest]] eqn:Hcards; try discriminate.
  destruct (card_step_cards_of app_id)
    as [(c & _ & Hnone & _ & E) | (card_id & upd & sid & Hupd & Hcode & E)];
    rewrite E, Hcards; clear E.
  - destruct (N.eqb_spec (Card.application_id c) app_id) as [Heq|_].
    + rewrite Heq, Hcards in Hnone. discriminate.
    + cbn. now rewrite card_step_status_code.
  - cbn. destruct (N.eqb (Card.id c0) card_id).
    + destruct (Hupd c0) as (_ & _ & ->).
      now rewrite card_step_status_code, Hcode.
    + now rewrite card_step_status_code.
Qed.

Lemma card_step_cards_in_chain :
  cards_in_chain d = true -> cards_in_chain d' = true.
Proof.
  unfold cards_in_chain. rewrite !forallb_forall. intros Hall c Hin.
  rewrite card_step_status_code.
  destruct Hstep as [c0 history Hfresh Hnone Hcode
                   | card_id upd sid history Hupd Hcode];
    cbn in Hin.
  - apply in_app_or in Hin. destruct Hin as [Hin|[<-|[]]].
    + now apply Hall.
    + now rewrite Hcode.
  - unfold update_where in Hin. apply in_map_iff in Hin.
    destruct Hin as (x & <- & Hin).
    destruct (N.eqb (Card.id x) card_id).
    + destruct (Hupd x) as (_ & _ & ->). now rewrite Hcode.
    + now apply Hall.
Qed.

Lemma card_step_one_card_each :
  one_card_each d = true -> one_card_each d' = true.
Proof.
  rewrite !one_card_each_spec. intros Hone app_id. specialize (Hone app_id).
  destruct (card_step_cards_of app_id)
    as [(c & _ & Hnone & _ & E) | (card_id & upd & sid & Hupd & Hcode & E)];
    rewrite E; clear E.
  - destruct (N.eqb_spec (Card.application_id c) app_id) as [Heq|_].
    + rewrite Heq in Hnone. rewrite Hnone. cbn. lia.
    + now rewrite app_nil_r.
  - now rewrite length_update_where.
Qed.

Lemma card_step_card_keys_ok : card_keys_ok d = true -> card_keys_ok d' = true.
Proof.
  unfold card_keys_ok.
  destruct Hstep as [c history Hfresh Hnone Hcode
                   | card_id upd sid history Hupd Hcode]; cbn; intros Hd.
  - rewrite map_app. cbn. now apply distinct_ids_snoc.
  - rewrite (map_update_where Card.id); [assumption|]. intros x. apply Hupd.
Qed.

End CardStep.

Lemma advance_frame (d d' : Database) :
  advance d d' ->
  ref_status d' = ref_status d
  /\ card_application d' = card_application d
  /\ issue_batch d' = issue_batch d
  /\ issue_batch_item d' = issue_batch_item d.
Proof.
  induction 1 as [|d1 d2 _ IH Hstep]; [auto|].
  destruct (card_step_frame _ _ Hstep) as (E1 & E2 & E3 & E4).
  destruct IH as (F1 & F2 & F3 & F4). repeat split; congruence.
Qed.

Lemma advance_settled (d d' : Database) (app_id : uuid) :
  advance d d' -> settled d app_id = true -> settled d' app_id = true.
Proof.
  induction 1 as [|d1 d2 _ IH Hstep]; [auto|].
  intros H. eapply card_step_settled; eauto.
Qed.

Lemma advance_cards_in_chain (d d' : Database) :
  advance d d' -> cards_in_chain d = true -> cards_in_chain d' = true.
Proof.
  induction 1 as [|d1 d2 _ IH Hstep]; [auto|].
  intros H. eapply card_step_cards_in_chain; eauto.
Qed.

Lemma advance_one_card_each (d d' : Database) :
  advance d d' -> one_card_each d = true -> one_card_each d' = true.
Proof.
  induction 1 as [|d1 d2 _ IH Hstep]; [auto|].
  intros H. eapply card_step_one_card_each; eauto.
Qed.

Lemma advance_card_keys_ok (d d' : Database) :
  advance d d' -> card_keys_ok d = true -> card_keys_ok d' = true.
Proof.
  induction 1 as [|d1 d2 _ IH Hstep]; [auto|].
  intros H. eapply card_step_card_keys_ok; eauto.
Qed.

Lemma advance_catalogue_ok (d d' : Database) :
  advance d d' -> catalogue_ok d' = catalogue_ok d.
Proof. intros H. apply catalogue_ok_ext, (advance_frame _ _ H). Qed.

Lemma advance_eligible (d d' : Database) (app_id : uuid) :
  advance d d' -> eligible d' app_id = eligible d app_id.
Proof. intros H. apply eligible_ext; apply (advance_frame _ _ H). Qed.

Lemma advance_status_code (d d' : Database) (sid : Z) :
  advance d d' -> status_code d' sid = status_code d sid.
Proof. intros H. apply status_code_ext, (advance_frame _ _ H). Qed.

Lemma advance_trans (d1 d2 d3 : Database) :
  advance d1 d2 -> advance d2 d3 -> advance d1 d3.
Proof.
  intros H12 H23. induction H23 as [|d3 d4 _ IH Hstep]; [assumption|].
  eapply advance_step; eauto.
Qed.

Lemma card_event_returned (w w' : World) (card_id : uuid) (event : string)
    (by_ : option string) (c' : Card.t) :
  card_event card_id event by_ w = (Returned c', w') ->
  exists c cur next r upd,
    find (fun x => N.eqb (Card.id x) card_id) (card (session w)) = Some c
    /\ status_code (session w) (Card.status_id c) = Some cur
    /\ dict_get event_mapping event = Some next
    /\ in_set next (dict_get_default CARD_ALLOWED cur []) = true
    /\ filter (fun r => String.eqb (RefStatus.entity_type r) "card"
                        && String.eqb (RefStatus.code r) next)
              (ref_status (session w)) = [r]
    /\ c' = upd c
    /\ card (session w') = update_where Card.id card_id upd (card (session w))
    /\ (forall x, Card.id (upd x) = Card.id x
                  /\ Card.application_id (upd x) = Card.application_id x
                  /\ Card.card_no (upd x) = Card.card_no x
                  /\ Card.status_id (upd x) = RefStatus.id r)
    /\ ref_status (session w') = ref_status (session w)
    /\ card_application (session w') = card_application (session w)
    /\ issue_batch (session w') = issue_batch (session w)
    /\ issue_batch_item (session w') = issue_batch_item (session w)
    /\ committed w' = session w'
    /\ clock w' = clock w.
Proof.
  intros H.
  destruct (find (fun x => N.eqb (Card.id x) card_id) (card (session w)))
    as [c|] eqn:Hfind.
  2:{ unfold card_event in H. revert H. run. rewrite Hfind. run. discriminate. }
  destruct (find (fun r => RefStatus.id r =? Card.status_id c)
                 (ref_status (session w))) as [s|] eqn:Hs.
  2:{ unfold card_event in H. revert H. run. rewrite Hfind. run. rewrite Hs.
      run. discriminate. }
  pose proof (find_status_code _ _ _ Hs) as Hcur.
  destruct (dict_get event_mapping event) as [next|] eqn:Hmap.
  2:{ rewrite (card_event_unknown w card_id event by_ c _ Hfind Hcur Hmap) in H.
      discriminate. }
  destruct (in_set next (dict_get_default CARD_ALLOWED (RefStatus.code s) []))
    eqn:Hallowed.
  2:{ rewrite (card_event_refused w card_id event by_ c _ next Hfind Hcur Hmap
                 Hallowed) in H. discriminate. }
  destruct (filter (fun r => String.eqb (RefStatus.entity_type r) "card"
                             && String.eqb (RefStatus.code r) next)
                   (ref_status (session w))) as [|r [|r' rows]] eqn:Hrow.
  - destruct (card_event_no_row w card_id event by_ c _ next [] Hfind Hcur Hmap
                Hallowed Hrow) as (e & w1 & E); [cbn; lia | congruence].
  - destruct (card_event_run w card_id event by_ c _ next r Hfind Hcur Hmap
                Hallowed Hrow)
      as (upd & w1 & E & Hcard & Hupd & F1 & F2 & F3 & F4 & _ & Hcm & Hclk).
    rewrite E in H. injection H as <- <-.
    exists c, (RefStatus.code s), next, r, upd. repeat split; try assumption;
      try reflexivity; apply Hupd.
  - destruct (card_event_no_row w card_id event by_ c _ next (r :: r' :: rows)
                Hfind Hcur Hmap Hallowed Hrow) as (e & w1 & E);
      [cbn; lia | congruence].
Qed.

Lemma card_step_created (d d' : Database) (c : Card.t) :
  ref_status d' = ref_status d ->
  card_application d' = card_application d ->
  issue_batch d' = issue_batch d ->
  issue_batch_item d' = issue_batch_item d ->
  card d' = (card d ++ [c])%list ->
  ~ In (Card.id c) (map Card.id (card d)) ->
  cards_of d (Card.application_id c) = [] ->
  status_code d (Card.status_id c) = Some "CREATED" ->
  card_step d d'.
Proof.
  intros F1 F2 F3 F4 Hcard Hfresh Hnone Hcode.
  replace d' with (set_status_history (status_history d')
                     (set_card (card d ++ [c]) d)).
  - now constructor.
  - symmetry. apply database_eq; cbn; auto.
Qed.

Lemma card_step_issued (d d' : Database) (card_id : uuid)
    (upd : Card.t -> Card.t) (sid : Z) :
  ref_status d' = ref_status d ->
  card_application d' = card_application d ->
  issue_batch d' = issue_batch d ->
  issue_batch_item d' = issue_batch_item d ->
  card d' = update_where Card.id card_id upd (card d) ->
  (forall x, Card.id (upd x) = Card.id x
             /\ Card.application_id (upd x) = Card.application_id x
             /\ Card.status_id (upd x) = sid) ->
  status_code d sid = Some "ISSUED" ->
  card_step d d'.
Proof.
  intros F1 F2 F3 F4 Hcard Hupd Hcode.
  replace d' with (set_status_history (status_history d')
                     (set_card (update_where Card.id card_id upd (card d)) d)).
  - now apply step_issued with (sid := sid).
  - symmetry. apply database_eq; cbn; auto.
Qed.

(** A successful event "issued" is one [card_step]. *)
Lemma card_event_issued_step (w w' : World) (card_id : uuid)
    (by_ : option string) (c' : Card.t) :
  catalogue_ok (session w) = true ->
  card_event card_id "issued" by_ w = (Returned c', w') ->
  exists upd sid,
    card_step (session w) (session w')
    /\ card (session w') = update_where Card.id card_id upd (card (session w))
    /\ (forall x, Card.id (upd x) = Card.id x
                  /\ Card.application_id (upd x) = Card.application_id x
                  /\ Card.status_id (upd x) = sid)
    /\ status_code (session w) sid = Some "ISSUED"
    /\ committed w' = session w'.
Proof.
  intros Hok H. apply card_event_returned in H.
  destruct H as (c & cur & next & r & upd & _ & _ & Hmap & _ & Hrow & _ & Hcard
                 & Hupd & F1 & F2 & F3 & F4 & Hcm & _).
  cbn in Hmap. injection Hmap as <-.
  apply filter_status_row in Hrow. destruct Hrow as (Hin & _ & Hcode).
  pose proof (catalogue_code _ _ Hok Hin) as Hsid. rewrite Hcode in Hsid.
  assert (Hupd' : forall x, Card.id (upd x) = Card.id x
                  /\ Card.application_id (upd x) = Card.application_id x
                  /\ Card.status_id (upd x) = RefStatus.id r).
  { intros x. destruct (Hupd x) as (U1 & U2 & _ & U4). auto. }
  exists upd, (RefStatus.id r). repeat split; try assumption; try apply Hupd'.
  eapply card_step_issued; eauto.
Qed.

Lemma eligible_intro (d : Database) (app_id : uuid) (a : CardApplication.t)
    (code : string) :
  find (fun r => N.eqb (CardApplication.id r) app_id) (card_application d) = Some a ->
  status_code d (CardApplication.status_id a) = Some code ->
  in_set code ["APPROVED"; "IN_BATCH"] = true ->
  eligible d app_id = true.
Proof. intros Hfind Hcode Hset. unfold eligible. now rewrite Hfind, Hcode. Qed.

Lemma eligible_elim (d : Database) (app_id : uuid) :
  eligible d app_id = true ->
  exists a code,
    find (fun r => N.eqb (CardApplication.id r) app_id) (card_application d) = Some a
    /\ status_code d (CardApplication.status_id a) = Some code
    /\ in_set code ["APPROVED"; "IN_BATCH"] = true.
Proof.
  unfold eligible. destruct (find _ _) as [a|]; [|discriminate].
  destruct (status_code d _) as [code|] eqn:Hcode; [|discriminate].
  intros H. now exists a, code.
Qed.

Lemma settled_elim (d : Database) (app_id : uuid) :
  settled d app_id = true ->
  eligible d app_id = true
  /\ exists c code,
       cards_of d app_id = [c]
       /\ status_code d (Card.status_id c) = Some code
       /\ String.eqb code "CREATED" = false.
Proof.
  unfold settled. intros H. apply andb_true_iff in H. destruct H as [He H].
  split; [assumption|].
  destruct (cards_of d app_id) as [|c [|c1 rest]]; try discriminate.
  destruct (status_code d (Card.status_id c)) as [code|] eqn:Hcode;
    [|discriminate].
  exists c, code. repeat split; [assumption|]. now apply negb_true_iff.
Qed.

Lemma settled_intro (d : Database) (app_id : uuid) (c : Card.t) (code : string) :
  eligible d app_id = true ->
  cards_of d app_id = [c] ->
  status_code d (Card.status_id c) = Some code ->
  String.eqb code "CREATED" = false ->
  settled d app_id = true.
Proof.
  intros He Hcards Hcode Hne. unfold settled.
  now rewrite He, Hcards, Hcode, Hne.
Qed.

(** One turn of the loop that returns has settled its application by
    steps of the card operations. *)
Lemma issue_one_returned (w w' : World) (app_id : uuid) (by_ : option string)
    (issued issued' : Z) :
  catalogue_ok (session w) = true ->
  issue_one app_id by_ issued w = (Returned issued', w') ->
  advance (session w) (session w')
  /\ settled (session w') app_id = true
  /\ (w' = w \/ committed w' = session w')
  /\ issued <= issued' <= issued + 1.
Proof.
  intros Hok H. unfold issue_one in H.
  apply bind_returned in H. destruct H as (c & w1 & Hens & H).
  destruct (ensure_card_returned _ _ _ _ _ Hens)
    as (a & code & Hfind & Hcode & Hset & Hcase).
  pose proof (eligible_intro _ _ _ _ Hfind Hcode Hset) as Helig.
  assert (H1 : advance (session w) (session w1)
               /\ eligible (session w1) app_id = true
               /\ cards_of (session w1) app_id = [c]
               /\ (w1 = w \/ committed w1 = session w1)
               /\ catalogue_ok (session w1) = true).
  { destruct Hcase as [[Hcards ->] | (Hnone & r & Hrow & Hc)].
    - repeat split; auto. constructor.
    - destruct (ensure_card_new w app_id by_ a code r Hfind Hcode Hset Hnone Hrow)
        as (w2 & E & Hcard & F1 & F2 & F3 & F4 & _ & Hcm & _).
      rewrite Hens in E. injection E as _ <-. subst c.
      apply filter_status_row in Hrow. destruct Hrow as (Hin & _ & Hc).
      pose proof (catalogue_code _ _ Hok Hin) as Hsid. rewrite Hc in Hsid.
      assert (Hstep : card_step (session w) (session w1)).
      { eapply card_step_created; eauto. apply uuid4_fresh. }
      split; [eapply advance_step; [constructor | exact Hstep]|].
      split; [now rewrite (card_step_eligible _ _ Hstep)|].
      split.
      + unfold cards_of in *. rewrite Hcard, filter_app, Hnone. cbn.
        now rewrite N.eqb_refl.
      + split; [now right|]. now rewrite (catalogue_ok_ext _ _ F1). }
  clear Hcase Hens Hfind Hcode Hset Helig a code.
  destruct H1 as (Hadv & Helig & Hcards & Hclean & Hok1).
  apply bind_returned in H. destruct H as (st & w2 & Hst & H).
  unfold get_RefStatus, query in Hst. injection Hst as <- <-.
  apply bind_returned in H. destruct H as (cur & w2 & Hcur & H).
  destruct (find _ _) as [s|] eqn:Hs; [|discriminate].
  cbn in Hcur. injection Hcur as <- <-.
  pose proof (find_status_code _ _ _ Hs) as Hcode.
  destruct (String.eqb (RefStatus.code s) "CREATED") eqn:Hcreated.
  - apply bind_returned in H. destruct H as (c' & w2 & Hev & H).
    cbn in H. injection H as <- <-.
    destruct (card_event_issued_step _ _ _ _ _ Hok1 Hev)
      as (upd & sid & Hstep & Hcard & Hupd & Hsid & Hcm).
    split; [eapply advance_step; eauto|].
    split.
    + eapply settled_intro with (c := upd c) (code := "ISSUED").
      * now rewrite (card_step_eligible _ _ Hstep).
      * unfold cards_of in *. rewrite Hcard.
        rewrite (filter_update_where Card.id Card.application_id)
          by (intros x; apply Hupd).
        rewrite Hcards. cbn. now rewrite N.eqb_refl.
      * rewrite (card_step_status_code _ _ Hstep).
        destruct (Hupd c) as (_ & _ & ->). exact Hsid.
      * reflexivity.
    + split; [now right | lia].
  - cbn in H. injection H as <- <-.
    split; [assumption|]. split.
    + eapply settled_intro; eauto.
    + split; [assumption | lia].
Qed.

(** The loop that returns has settled every application it was given. *)
Lemma issue_loop_returned (ids : list uuid) (by_ : option string) :
  forall (w w' : World) (issued created issued' created' : Z),
    catalogue_ok (session w) = true ->
    issue_loop ids by_ issued created w = (Returned (issued', created'), w') ->
    advance (session w) (session w')
    /\ (forall app_id, In app_id ids -> settled (session w') app_id = true)
    /\ (w' = w \/ committed w' = session w')
    /\ created' = created + Z.of_nat (List.length ids)
    /\ issued <= issued' <= issued + Z.of_nat (List.length ids).
Proof.
  induction ids as [|app_id ids IH]; intros w w' issued created issued' created'
    Hok H; cbn [issue_loop] in H.
  - cbn in H. injection H as <- <- <-. cbn [List.length In].
    split; [apply advance_refl|]. split; [intros x []|].
    split; [now left | lia].
  - apply bind_returned in H. destruct H as (i1 & w1 & Hone & H).
    destruct (issue_one_returned _ _ _ _ _ _ Hok Hone)
      as (Hadv1 & Hset1 & Hclean1 & Hi1).
    assert (Hok1 : catalogue_ok (session w1) = true)
      by now rewrite (advance_catalogue_ok _ _ Hadv1).
    destruct (IH _ _ _ _ _ _ Hok1 H) as (Hadv & Hset & Hclean & Hc & Hi).
    split; [eapply advance_trans; eauto|].
    split.
    { intros x [<-|Hin]; [eapply advance_settled; eauto | now apply Hset]. }
    split.
    { destruct Hclean as [->|Hcm]; [|now right]. exact Hclean1. }
    cbn [List.length]. lia.
Qed.

(** With every application settled the loop changes nothing and
    issues nothing. *)
Lemma issue_loop_settled (ids : list uuid) (by_ : option string) (w : World) :
  (forall app_id, In app_id ids -> settled (session w) app_id = true) ->
  forall issued created,
    issue_loop ids by_ issued created w
    = (Returned (issued, created + Z.of_nat (List.length ids)), w).
Proof.
  induction ids as [|app_id ids IH]; intros Hall issued created;
    cbn [issue_loop List.length].
  - cbn. now rewrite Z.add_0_r.
  - destruct (settled_elim _ _ (Hall app_id (or_introl eq_refl)))
      as (Helig & c & code & Hcards & Hcode & Hne).
    apply eligible_elim in Helig. destruct Helig as (a & acode & Hfind & Ha & Hset).
    apply status_code_find in Hcode. destruct Hcode as (s & Hs & <-).
    assert (Hone : issue_one app_id by_ issued w = (Returned issued, w)).
    { unfold issue_one.
      rewrite (bind_step _ _ _ _ _
                 (ensure_card_existing w app_id by_ a acode c Hfind Ha Hset Hcards)).
      run. rewrite Hs. run. now rewrite Hne. }
    rewrite (bind_step _ _ _ _ _ Hone).
    rewrite IH by (intros x Hx; apply Hall; now right).
    do 2 f_equal. f_equal. lia.
Qed.

(* ================================================================= *)
(** * Applications *)



(** Python truthiness at work: a reject reason 0 counts as absent. *)
Lemma decide_reject_reason_zero (w : World) (app_id : uuid)
    (data : ApplicationDecisionIn.t) (by_ : option string)
    (a : CardApplication.t) (cur : string) :
  find (fun r => N.eqb (CardApplication.id r) app_id)
       (card_application (session w)) = Some a ->
  status_code (session w) (CardApplication.status_id a) = Some cur ->
  In cur ["NEW"; "IN_REVIEW"] ->
  ApplicationDecisionIn.decision data = "reject" ->
  ApplicationDecisionIn.reject_reason_id data = Some 0 ->
  fst (decide_application app_id data by_ w)
  = Raised (ValueError "reject_reason_id is required for rejection").
Proof.
  intros Hfind Hcode Hin Hdec Hzero.
  apply status_code_find in Hcode. destruct Hcode as (s & Hs & <-).
  assert (Hset : in_set (RefStatus.code s) ["NEW"; "IN_REVIEW"] = true).
  { cbn [In] in Hin. destruct Hin as [<-|[<-|[]]]; reflexivity. }
  unfold decide_application. run. rewrite Hfind. run.
  rewrite Hs. run. rewrite Hset. cbn [negb]. rewrite Hdec. eval_eqb.
  rewrite Hzero. reflexivity.
Qed.

(* ================================================================= *)
(** * Cards: the chain *)

(** C2. For a card in state [cur], an event succeeds exactly when it is
    mapped to the state that follows [cur] in the chain CREATED, ISSUED,
    DELIVERED, HANDED, ACTIVATED, CLOSED, and the card is then committed
    in that state; a mapped event with any other target raises the
    "transition is not allowed" [ValueError] (the invalid-state error of
    the specification) and an event outside the mapping raises the
    "invalid event" [ValueError] (the validation error), both leaving the
    world untouched. *)
Theorem card_event_follows_chain (w : World) (card_id : uuid) (event : string)
    (by_ : option string) (c : Card.t) (cur : string) :
  catalogue_ok (session w) = true ->
  find (fun x => N.eqb (Card.id x) card_id) (card (session w)) = Some c ->
  status_code (session w) (Card.status_id c) = Some cur ->
  match dict_get event_mapping event with
  | None =>
      card_event card_id event by_ w = (Raised (ValueError "Invalid event"), w)
  | Some next =>
      (chain_successor card_chain cur = Some next ->
         exists c' w',
           card_event card_id event by_ w = (Returned c', w')
           /\ status_code (committed w') (Card.status_id c') = Some next
           /\ find (fun x => N.eqb (Card.id x) card_id) (card (committed w'))
              = Some c')
      /\ (chain_successor card_chain cur <> Some next ->
            card_event card_id event by_ w
            = (Raised (ValueError ("Transition " ++ cur ++ " -> " ++ next
                                   ++ " is not allowed")), w))
  end.
Proof.
  intros Hok Hfind Hcur.
  destruct (dict_get event_mapping event) as [next|] eqn:Hmap.
  2:{ eapply card_event_unknown; eauto. }
  split.
  - intros Hsucc. apply CARD_ALLOWED_chain in Hsucc.
    destruct (event_mapping_row _ _ _ Hok Hmap) as (r & Hrow).
    destruct (card_event_run w card_id event by_ c cur next r Hfind Hcur Hmap
                Hsucc Hrow)
      as (upd & w' & E & Hcard & Hupd & F1 & _ & _ & _ & _ & Hcm & _).
    exists (upd c), w'. split; [exact E|].
    apply filter_status_row in Hrow. destruct Hrow as (Hin & _ & Hcode).
    rewrite Hcm. split.
    + destruct (Hupd c) as (_ & _ & _ & ->).
      rewrite (status_code_ext _ _ _ F1), <- Hcode.
      now apply catalogue_code.
    + rewrite Hcard.
      rewrite (find_update_where Card.id) by (intros x; apply Hupd).
      now rewrite Hfind.
  - intros Hno. eapply card_event_refused; eauto.
    destruct (in_set next (dict_get_default CARD_ALLOWED cur [])) eqn:E;
      [|reflexivity].
    apply CARD_ALLOWED_chain in E. contradiction.
Qed.

(* ================================================================= *)
(** * Batches: free-form update *)

(** C10. [update_batch] on an existing batch never raises.  A null
    vendor leaves [vendor_id] as it was and a vendor given replaces it;
    [planned_send_at] always takes the supplied value, null included;
    every other column of the batch, every other batch and every other
    table stay as they were.  The [updated_at] it assigns is the current
    instant and lives on the returned object only. *)
Theorem update_batch_asymmetric (w : World) (batch_id : uuid)
    (data : BatchUpdate.t) (by_ : option string) (b : IssueBatch.t) :
  find (fun r => N.eqb (IssueBatch.id r) batch_id) (issue_batch (session w))
  = Some b ->
  exists b' w',
    update_batch batch_id data by_ w = (Returned (b', clock w), w')
    /\ b' = IssueBatch.mk
              (IssueBatch.id b) (IssueBatch.batch_no b)
              (match BatchUpdate.vendor_id data with
               | Some v => v
               | None => IssueBatch.vendor_id b
               end)
              (IssueBatch.status_id b) (BatchUpdate.planned_send_at data)
              (IssueBatch.sent_at b) (IssueBatch.received_at b)
              (IssueBatch.created_at b)
    /\ committed w' = session w'
    /\ find (fun r => N.eqb (IssueBatch.id r) batch_id)
            (issue_batch (committed w')) = Some b'
    /\ (forall pk, pk <> batch_id ->
          find (fun r => N.eqb (IssueBatch.id r) pk) (issue_batch (committed w'))
          = find (fun r => N.eqb (IssueBatch.id r) pk) (issue_batch (session w)))
    /\ ref_status (committed w') = ref_status (session w)
    /\ card_application (committed w') = card_application (session w)
    /\ issue_batch_item (committed w') = issue_batch_item (session w)
    /\ card (committed w') = card (session w)
    /\ status_history (committed w') = status_history (session w).
Proof.
  intros Hfind.
  pose proof (find_key_some IssueBatch.id _ _ _ Hfind) as [_ Hid].
  unfold update_batch. destruct w as [cm ss s1 s2 s3 clk].
  cbn [session clock] in *. run. rewrite Hfind.
  destruct (BatchUpdate.vendor_id data) as [v|]; run;
    simpl (IssueBatch.id _); subst batch_id;
    repeat rewrite (update_where_compose IssueBatch.id) by (intros; reflexivity);
    (do 2 eexists; split; [reflexivity|]);
    cbn [session committed card ref_status card_application issue_batch
         issue_batch_item status_history clock];
    (split; [reflexivity|]); (split; [reflexivity|]);
    (split;
     [ rewrite (find_update_where IssueBatch.id) by (intros; reflexivity);
       now rewrite Hfind |]);
    (split;
     [ intros pk Hpk;
       now rewrite (find_update_where_other IssueBatch.id)
         by (intros; reflexivity || assumption) |]);
    repeat split; reflexivity.
Qed.

(* ================================================================= *)
(** * Batches: status changes *)

(** [set_batch_status] on an existing batch and a code of the batch
    catalogue: the status change is committed, in the world [wmid],
    before the cascade starts from there. *)
Lemma set_batch_status_run (w : World) (batch_id : uuid) (code : string)
    (by_ : option string) (b0 : IssueBatch.t) (r : RefStatus.t) :
  find (fun x => N.eqb (IssueBatch.id x) batch_id) (issue_batch (session w))
  = Some b0 ->
  filter (fun r => String.eqb (RefStatus.entity_type r) "batch"
                   && String.eqb (RefStatus.code r) code)
         (ref_status (session w)) = [r] ->
  exists (upd : IssueBatch.t -> IssueBatch.t) (wmid : World),
    set_batch_status batch_id code by_ w
    = (if String.eqb code "RECEIVED" then
         match issue_batch_cards batch_id by_ wmid with
         | (Returned _, w') => (Returned (upd b0), w')
         | (Raised e, w') => (Raised e, w')
         end
       else (Returned (upd b0), wmid))
    /\ issue_batch (session wmid)
       = update_where IssueBatch.id batch_id upd (issue_batch (session w))
    /\ (forall x,
          IssueBatch.id (upd x) = IssueBatch.id x
          /\ IssueBatch.batch_no (upd x) = IssueBatch.batch_no x
          /\ IssueBatch.vendor_id (upd x) = IssueBatch.vendor_id x
          /\ IssueBatch.planned_send_at (upd x) = IssueBatch.planned_send_at x
          /\ IssueBatch.created_at (upd x) = IssueBatch.created_at x
          /\ IssueBatch.status_id (upd x) = RefStatus.id r
          /\ IssueBatch.sent_at (upd x)
             = (if String.eqb code "SENT" then Some (clock w)
                else IssueBatch.sent_at x)
          /\ IssueBatch.received_at (upd x)
             = (if String.eqb code "RECEIVED" then Some (clock w)
                else IssueBatch.received_at x))
    /\ committed wmid = session wmid
    /\ ref_status (session wmid) = ref_status (session w)
    /\ card_application (session wmid) = card_application (session w)
    /\ issue_batch_item (session wmid) = issue_batch_item (session w)
    /\ card (session wmid) = card (session w)
    /\ status_history (session wmid)
       = (status_history (session w)
          ++ [StatusHistory.mk
                (uuid4 (map StatusHistory.id (status_history (session w))))
                "batch" batch_id (RefStatus.id r) (clock w) by_])%list
    /\ clock wmid = clock w.
Proof.
  intros Hfind Hrow.
  pose proof (find_key_some IssueBatch.id _ _ _ Hfind) as [_ Hid].
  unfold set_batch_status. destruct w as [cm ss s1 s2 s3 clk].
  cbn [session clock] in *. run. rewrite Hfind.
  destruct (String.eqb code "SENT"), (String.eqb code "RECEIVED"); run;
    unfold set_status, get_status_id; run; rewrite Hrow; cbn [scalar_one]; run;
    simpl (IssueBatch.id _); rewrite Hid;
    repeat rewrite (update_where_compose IssueBatch.id) by (intros; reflexivity);
    match goal with
    | |- context [update_where IssueBatch.id batch_id ?f (issue_batch ss)] =>
        exists f
    end;
    first
      [ match goal with
        | |- context [issue_batch_cards batch_id by_ ?wm] => exists wm
        end;
        split;
        [ destruct (issue_batch_cards batch_id by_ _) as [[?|?] ?]; reflexivity |]
      | eexists; split; [reflexivity|] ];
    cbn [session committed card ref_status card_application issue_batch
         issue_batch_item status_history clock];
    repeat split; reflexivity.
Qed.

Lemma set_batch_status_missing (w : World) (batch_id : uuid) (code : string)
    (by_ : option string) :
  find (fun x => N.eqb (IssueBatch.id x) batch_id) (issue_batch (session w))
  = None ->
  set_batch_status batch_id code by_ w = (Raised (ValueError "Batch not found"), w).
Proof. intros Hfind. unfold set_batch_status. run. now rewrite Hfind. Qed.

(** Without exactly one catalogue row for the code the call raises
    before it commits. *)
Lemma set_batch_status_no_row (w : World) (batch_id : uuid) (code : string)
    (by_ : option string) (b0 : IssueBatch.t) (rows : list RefStatus.t) :
  find (fun x => N.eqb (IssueBatch.id x) batch_id) (issue_batch (session w))
  = Some b0 ->
  filter (fun r => String.eqb (RefStatus.entity_type r) "batch"
                   && String.eqb (RefStatus.code r) code)
         (ref_status (session w)) = rows ->
  List.length rows <> 1%nat ->
  exists e w', set_batch_status batch_id code by_ w = (Raised e, w').
Proof.
  intros Hfind Hrow Hlen.
  unfold set_batch_status. destruct w as [cm ss s1 s2 s3 clk].
  cbn [session clock] in *. run. rewrite Hfind.
  destruct rows as [|r [|r' rows]]; [|cbn in Hlen; congruence|];
    destruct (String.eqb code "SENT"), (String.eqb code "RECEIVED"); run;
    unfold set_status, get_status_id; run; rewrite Hrow; cbn [scalar_one]; run;
    eauto.
Qed.

(* ================================================================= *)
(** * What the card operations leave alone *)

Section Frame.

Variable batches : list IssueBatch.t.
Variable statuses : list RefStatus.t.

Lemma frame_ret {A : Type} (a : A) : keeps (batch_frame batches statuses) (ret a).
Proof. intros w H. exact H. Qed.

Lemma frame_raise {A : Type} (e : exn) : keeps (batch_frame batches statuses) (@raise A e).
Proof. intros w H. exact H. Qed.

Lemma frame_query {A : Type} (f : Database -> A) : keeps (batch_frame batches statuses) (query f).
Proof. intros w H. exact H. Qed.

Lemma frame_utcnow : keeps (batch_frame batches statuses) utcnow.
Proof. intros w H. exact H. Qed.

Lemma frame_commit : keeps (batch_frame batches statuses) commit.
Proof. intros w (H1 & H2 & H3 & H4). repeat split; assumption. Qed.

Lemma frame_next_seq (seq_name : string) : keeps (batch_frame batches statuses) (next_seq seq_name).
Proof.
  intros w H. unfold next_seq.
  repeat match goal with |- context [if ?b then _ else _] => destruct b end;
    exact H.
Qed.

Lemma frame_mutate (f : Database -> Database) :
  (forall d, issue_batch (f d) = issue_batch d) ->
  (forall d, ref_status (f d) = ref_status d) ->
  keeps (batch_frame batches statuses) (mutate f).
Proof.
  intros Hb Hs w (H1 & H2 & H3 & H4). repeat split; cbn; try assumption.
  - now rewrite Hb.
  - now rewrite Hs.
Qed.

Lemma frame_scalar_one {A : Type} (rows : list A) : keeps (batch_frame batches statuses) (scalar_one rows).
Proof. intros w H. destruct rows as [|r [|r' rows]]; exact H. Qed.

Lemma frame_scalar_one_or_none {A : Type} (rows : list A) :
  keeps (batch_frame batches statuses) (scalar_one_or_none rows).
Proof. intros w H. destruct rows as [|r [|r' rows]]; exact H. Qed.

Lemma frame_code_attr (s : option RefStatus.t) : keeps (batch_frame batches statuses) (code_attr s).
Proof. intros w H. destruct s; exact H. Qed.

Lemma frame_assign_Card (c : Card.t) (f : Card.t -> Card.t) :
  keeps (batch_frame batches statuses) (assign_Card c f).
Proof.
  unfold assign_Card. apply keeps_bind; [|intros _; apply frame_ret].
  apply frame_mutate; reflexivity.
Qed.

Lemma frame_add_history (entity_type : string) (entity_id : uuid)
    (status_id : Z) (by_ : option string) :
  keeps (batch_frame batches statuses) (add_history entity_type entity_id status_id by_).
Proof.
  unfold add_history, add_StatusHistory.
  apply keeps_bind; [apply frame_utcnow | intros now].
  apply frame_mutate; reflexivity.
Qed.

Lemma frame_get_status_id (entity_type code : string) :
  keeps (batch_frame batches statuses) (get_status_id entity_type code).
Proof.
  unfold get_status_id.
  apply keeps_bind; [apply frame_query | intros rows].
  apply keeps_bind; [apply frame_scalar_one | intros s]. apply frame_ret.
Qed.

Lemma frame_add_Card (mk_row : uuid -> Card.t) : keeps (batch_frame batches statuses) (add_Card mk_row).
Proof.
  unfold add_Card. apply keeps_bind; [apply frame_query | intros rows].
  destruct (existsb _ _); [apply frame_raise|].
  apply keeps_bind; [|intros _; apply frame_ret].
  apply frame_mutate; reflexivity.
Qed.

End Frame.

#[local] Hint Resolve frame_ret frame_raise frame_query frame_utcnow frame_commit
  frame_next_seq frame_scalar_one frame_scalar_one_or_none frame_code_attr
  frame_assign_Card frame_add_history frame_get_status_id frame_add_Card
  : frame.

(** Decomposes a goal [keeps (batch_frame _ _) m] along [m]. *)
Ltac frame_tac :=
  repeat first
    [ solve [auto with frame]
    | apply keeps_bind; [|intros ?]
    | match goal with
      | |- keeps _ (match ?x with _ => _ end) => destruct x
      | |- keeps _ (if ?b then _ else _) => destruct b
      end ].

Lemma frame_set_status (batches : list IssueBatch.t) (statuses : list RefStatus.t)
    (entity_type : string) (entity_id : uuid) (status_code : string)
    (by_ : option string) :
  keeps (batch_frame batches statuses)
        (set_status entity_type entity_id status_code by_).
Proof. unfold set_status. frame_tac. Qed.

#[local] Hint Resolve frame_set_status : frame.

Lemma frame_ensure_card_for_application (batches : list IssueBatch.t)
    (statuses : list RefStatus.t) (app_id : uuid) (by_ : option string) :
  keeps (batch_frame batches statuses) (ensure_card_for_application app_id by_).
Proof.
  unfold ensure_card_for_application, get_CardApplication, get_RefStatus.
  frame_tac.
Qed.

Lemma frame_card_event (batches : list IssueBatch.t)
    (statuses : list RefStatus.t) (card_id : uuid) (event : string)
    (by_ : option string) :
  keeps (batch_frame batches statuses) (card_event card_id event by_).
Proof. unfold card_event, get_Card, get_RefStatus. frame_tac. Qed.

#[local] Hint Resolve frame_ensure_card_for_application frame_card_event : frame.

Lemma frame_issue_one (batches : list IssueBatch.t)
    (statuses : list RefStatus.t) (app_id : uuid) (by_ : option string)
    (issued : Z) :
  keeps (batch_frame batches statuses) (issue_one app_id by_ issued).
Proof. unfold issue_one, get_RefStatus. frame_tac. Qed.

Lemma frame_issue_loop (batches : list IssueBatch.t)
    (statuses : list RefStatus.t) (ids : list uuid) (by_ : option string) :
  forall issued created,
    keeps (batch_frame batches statuses) (issue_loop ids by_ issued created).
Proof.
  induction ids as [|app_id ids IH]; intros issued created; cbn [issue_loop].
  - apply frame_ret.
  - apply keeps_bind; [apply frame_issue_one | intros i1]. apply IH.
Qed.

(** The cascade, however it ends, leaves the batches and the catalogue
    as they were, in the session and in the store. *)
Lemma frame_issue_batch_cards (batches : list IssueBatch.t)
    (statuses : list RefStatus.t) (batch_id : uuid) (by_ : option string) :
  keeps (batch_frame batches statuses) (issue_batch_cards batch_id by_).
Proof.
  unfold issue_batch_cards.
  apply keeps_bind; [apply frame_query | intros ids].
  apply keeps_bind; [apply frame_issue_loop | intros counters].
  apply frame_ret.
Qed.

(* ================================================================= *)
(** * The cascade on a consistent store *)

Lemma find_key_distinct {R : Type} (key : R -> uuid) (rows : list R) (r : R) :
  distinct_ids (map key rows) = true -> In r rows ->
  find (fun x => N.eqb (key x) (key r)) rows = Some r.
Proof.
  unfold uuid in *.
  induction rows as [|x rows IH]; intros Hd Hin; [contradiction|].
  cbn [map distinct_ids] in Hd. apply andb_true_iff in Hd.
  destruct Hd as [Hx Hd]. cbn [find]. destruct Hin as [->|Hin].
  - now rewrite N.eqb_refl.
  - destruct (N.eqb_spec (key x) (key r)) as [E|_]; [|now apply IH].
    exfalso. apply negb_true_iff in Hx.
    assert (existsb (N.eqb (key x)) (map key rows) = true); [|congruence].
    apply existsb_exists. exists (key r). split.
    + now apply in_map.
    + now apply N.eqb_eq.
Qed.

Lemma cascade_ready_elim (d : Database) (ids : list uuid) :
  cascade_ready d ids = true ->
  catalogue_ok d = true /\ cards_in_chain d = true /\ card_keys_ok d = true
  /\ one_card_each d = true
  /\ forall app_id, In app_id ids -> eligible d app_id = true.
Proof.
  unfold cascade_ready. rewrite !andb_true_iff, forallb_forall. tauto.
Qed.

Lemma cascade_ready_intro (d : Database) (ids : list uuid) :
  catalogue_ok d = true -> cards_in_chain d = true -> card_keys_ok d = true ->
  one_card_each d = true ->
  (forall app_id, In app_id ids -> eligible d app_id = true) ->
  cascade_ready d ids = true.
Proof.
  unfold cascade_ready. rewrite !andb_true_iff, forallb_forall. tauto.
Qed.

(** Once the card of the application is at hand, the rest of the turn
    goes through. *)
Lemma issue_one_from_card (w w1 : World) (app_id : uuid) (by_ : option string)
    (issued : Z) (c : Card.t) :
  ensure_card_for_application app_id by_ w = (Returned c, w1) ->
  catalogue_ok (session w1) = true ->
  cards_in_chain (session w1) = true ->
  card_keys_ok (session w1) = true ->
  In c (card (session w1)) ->
  exists issued' w', issue_one app_id by_ issued w = (Returned issued', w').
Proof.
  intros Hens Hok Hchain Hkeys Hin.
  unfold cards_in_chain in Hchain. rewrite forallb_forall in Hchain.
  specialize (Hchain c Hin).
  destruct (status_code (session w1) (Card.status_id c)) as [code|] eqn:Hcode;
    [|discriminate].
  pose proof Hcode as Hcode'.
  apply status_code_find in Hcode'. destruct Hcode' as (s & Hs & Hsc).
  unfold issue_one. rewrite (bind_step _ _ _ _ _ Hens). run. rewrite Hs. run.
  rewrite Hsc.
  destruct (String.eqb_spec code "CREATED") as [->|Hne]; [|eauto].
  destruct (catalogue_row _ "card" "ISSUED" _ _ Hok
              ltac:(cbn [status_rows In]; eauto 20)) as (r & Hrow).
  destruct (card_event_run w1 (Card.id c) "issued" by_ c "CREATED" "ISSUED" r)
    as (upd & w2 & E & _); try assumption; try reflexivity.
  { now apply find_key_distinct. }
  rewrite E. eauto.
Qed.

Lemma issue_one_total (w : World) (app_id : uuid) (by_ : option string)
    (issued : Z) :
  catalogue_ok (session w) = true ->
  cards_in_chain (session w) = true ->
  card_keys_ok (session w) = true ->
  one_card_each (session w) = true ->
  eligible (session w) app_id = true ->
  exists issued' w', issue_one app_id by_ issued w = (Returned issued', w').
Proof.
  intros Hok Hchain Hkeys Hone Helig.
  apply eligible_elim in Helig. destruct Helig as (a & code & Hfind & Hcode & Hset).
  pose proof (proj1 (one_card_each_spec _) Hone app_id) as Hlen.
  destruct (cards_of (session w) app_id) as [|c [|c1 rest]] eqn:Hcards;
    [| |cbn in Hlen; lia].
  - destruct (catalogue_row _ "card" "CREATED" _ _ Hok
                ltac:(cbn [status_rows In]; eauto 20)) as (r & Hrow).
    destruct (ensure_card_new w app_id by_ a code r Hfind Hcode Hset Hcards Hrow)
      as (w1 & E & Hcard & F1 & F2 & F3 & F4 & _ & Hcm & _).
    apply filter_status_row in Hrow. destruct Hrow as (Hin_r & _ & Hc).
    pose proof (catalogue_code _ _ Hok Hin_r) as Hsid. rewrite Hc in Hsid.
    assert (Hstep : card_step (session w) (session w1)).
    { eapply card_step_created; eauto. apply uuid4_fresh. }
    eapply issue_one_from_card; [exact E | | | |].
    + now rewrite (catalogue_ok_ext _ _ F1).
    + eapply card_step_cards_in_chain; eauto.
    + eapply card_step_card_keys_ok; eauto.
    + rewrite Hcard. apply in_or_app. right. now left.
  - eapply issue_one_from_card;
      [exact (ensure_card_existing w app_id by_ a code c Hfind Hcode Hset Hcards)
      | assumption | assumption | assumption |].
    assert (Hin : In c (cards_of (session w) app_id)) by (rewrite Hcards; now left).
    unfold cards_of in Hin. now apply filter_In in Hin.
Qed.

Lemma issue_loop_total (ids : list uuid) (by_ : option string) :
  forall (w : World) (issued created : Z),
    cascade_ready (session w) ids = true ->
    exists issued' created' w',
      issue_loop ids by_ issued created w = (Returned (issued', created'), w').
Proof.
  induction ids as [|app_id ids IH]; intros w issued created Hready;
    cbn [issue_loop].
  - now exists issued, created, w.
  - apply cascade_ready_elim in Hready.
    destruct Hready as (Hok & Hchain & Hkeys & Hone & Helig).
    destruct (issue_one_total w app_id by_ issued Hok Hchain Hkeys Hone
                (Helig app_id (or_introl eq_refl))) as (i1 & w1 & Hone1).
    destruct (issue_one_returned _ _ _ _ _ _ Hok Hone1) as (Hadv & _).
    rewrite (bind_step _ _ _ _ _ Hone1). apply IH.
    apply cascade_ready_intro.
    + now rewrite (advance_catalogue_ok _ _ Hadv).
    + eapply advance_cards_in_chain; eauto.
    + eapply advance_card_keys_ok; eauto.
    + eapply advance_one_card_each; eauto.
    + intros x Hx. rewrite (advance_eligible _ _ _ Hadv). apply Helig. now right.
Qed.

Lemma issue_batch_cards_total (w : World) (batch_id : uuid) (by_ : option string) :
  cascade_ready (session w) (batch_applications (session w) batch_id) = true ->
  exists report w', issue_batch_cards batch_id by_ w = (Returned report, w').
Proof.
  intros Hready. unfold issue_batch_cards. run.
  destruct (issue_loop_total _ by_ w 0 0 Hready) as (i' & c' & w' & E).
  unfold batch_applications in E. rewrite E. eauto.
Qed.

Lemma issue_batch_cards_returned (w w' : World) (batch_id : uuid)
    (by_ : option string) (report : IssueReport.t) :
  catalogue_ok (session w) = true ->
  issue_batch_cards batch_id by_ w = (Returned report, w') ->
  advance (session w) (session w')
  /\ (forall app_id, In app_id (batch_applications (session w) batch_id) ->
        settled (session w') app_id = true)
  /\ (w' = w \/ committed w' = session w')
  /\ IssueReport.applications report
     = Z.of_nat (List.length (batch_applications (session w) batch_id))
  /\ IssueReport.cards_total report
     = Z.of_nat (List.length (batch_applications (session w) batch_id))
  /\ 0 <= IssueReport.cards_issued_now report
     <= Z.of_nat (List.length (batch_applications (session w) batch_id)).
Proof.
  intros Hok H. unfold issue_batch_cards in H.
  apply bind_returned in H. destruct H as (ids & w0 & Hq & H).
  unfold query in Hq. injection Hq as <- <-.
  apply bind_returned in H. destruct H as ([i' c'] & w1 & Hloop & H).
  cbn in H. injection H as <- <-.
  destruct (issue_loop_returned _ _ _ _ _ _ _ _ Hok Hloop)
    as (Hadv & Hset & Hclean & Hc & Hi).
  unfold batch_applications. cbn [IssueReport.applications
    IssueReport.cards_total IssueReport.cards_issued_now fst snd].
  repeat split; try assumption; lia.
Qed.

Lemma cards_in_chain_ext (d d' : Database) :
  ref_status d' = ref_status d -> card d' = card d ->
  cards_in_chain d' = cards_in_chain d.
Proof. unfold cards_in_chain, status_code. now intros -> ->. Qed.

Lemma cascade_ready_ext (d d' : Database) (ids : list uuid) :
  ref_status d' = ref_status d -> card d' = card d ->
  card_application d' = card_application d ->
  cascade_ready d' ids = cascade_ready d ids.
Proof.
  intros F1 F2 F3.
  unfold cascade_ready, catalogue_ok, status_count, cards_in_chain, card_keys_ok,
    one_card_each, cards_of, eligible, status_code.
  now rewrite F1, F2, F3.
Qed.

Lemma past_created (code : string) :
  in_set code card_chain = true -> String.eqb code "CREATED" = false ->
  in_set code (tl card_chain) = true.
Proof.
  unfold in_set, card_chain. cbn [tl existsb]. intros H Hne.
  now rewrite Hne in H.
Qed.

(** A settled application of a store whose cards are all in the chain
    has its one card issued or later. *)
Lemma settled_issued_or_later (d : Database) (app_id : uuid) :
  cards_in_chain d = true -> settled d app_id = true ->
  exists c, cards_of d app_id = [c] /\ issued_or_later d c = true.
Proof.
  intros Hchain Hset. apply settled_elim in Hset.
  destruct Hset as (_ & c & code & Hcards & Hcode & Hne).
  exists c. split; [assumption|].
  unfold cards_in_chain in Hchain. rewrite forallb_forall in Hchain.
  assert (Hin : In c (card d)).
  { assert (H : In c (cards_of d app_id)) by (rewrite Hcards; now left).
    unfold cards_of in H. now apply filter_In in H. }
  specialize (Hchain c Hin). unfold issued_or_later.
  rewrite Hcode in *. now apply past_created.
Qed.

(* ================================================================= *)
(** * Receiving a batch *)

(** On a store on which the cascade is ready, receiving an existing
    batch returns. *)
Lemma set_batch_status_received_returns (w : World) (batch_id : uuid)
    (by_ : option string) (b0 : IssueBatch.t) :
  catalogue_ok (session w) = true ->
  find (fun x => N.eqb (IssueBatch.id x) batch_id) (issue_batch (session w))
  = Some b0 ->
  cascade_ready (session w) (batch_applications (session w) batch_id) = true ->
  exists b w', set_batch_status batch_id "RECEIVED" by_ w = (Returned b, w').
Proof.
  intros Hok Hfind Hready.
  destruct (catalogue_row _ "batch" "RECEIVED" _ _ Hok
              ltac:(cbn [status_rows In]; eauto 20)) as (r & Hrow).
  destruct (set_batch_status_run w batch_id "RECEIVED" by_ b0 r Hfind Hrow)
    as (upd & wmid & E & Hbatch & Hupd & Hcm & F1 & F2 & F3 & F4 & _ & _).
  rewrite E. clear E.
  change (String.eqb "RECEIVED" "RECEIVED") with true. cbn iota.
  destruct (issue_batch_cards_total wmid batch_id by_) as (report & w1 & Hissue).
  { unfold batch_applications in *. rewrite F3.
    now rewrite (cascade_ready_ext _ _ _ F1 F4 F2). }
  rewrite Hissue. eauto.
Qed.


(** C1. [set_batch_status] with the code RECEIVED runs
    [issue_batch_cards] on the batch after committing the status, so that
    when the call returns, every application of the batch's items has
    exactly one card in the store and that card is ISSUED or later; and on
    a store on which the cascade is ready the call does return.  The
    catalogue is taken consistent and the cards in the store to carry
    statuses of the card chain. *)
Theorem set_batch_status_received_issues (w : World) (batch_id : uuid)
    (by_ : option string) :
  catalogue_ok (session w) = true ->
  cards_in_chain (session w) = true ->
  (forall b w',
     set_batch_status batch_id "RECEIVED" by_ w = (Returned b, w') ->
     status_code (committed w') (IssueBatch.status_id b) = Some "RECEIVED"
     /\ (exists wmid report,
           issue_batch_cards batch_id by_ wmid = (Returned report, w')
           /\ committed wmid = session wmid
           /\ card (session wmid) = card (session w)
           /\ issue_batch_item (session wmid) = issue_batch_item (session w))
     /\ forall app_id,
          In app_id (batch_applications (committed w') batch_id) ->
          exists c, cards_of (committed w') app_id = [c]
                    /\ issued_or_later (committed w') c = true)
  /\ (forall b0,
        find (fun x => N.eqb (IssueBatch.id x) batch_id)
             (issue_batch (session w)) = Some b0 ->
        cascade_ready (session w) (batch_applications (session w) batch_id)
        = true ->
        exists b w', set_batch_status batch_id "RECEIVED" by_ w = (Returned b, w')).
Proof.
  intros Hok Hchain.
  destruct (catalogue_row _ "batch" "RECEIVED" _ _ Hok
              ltac:(cbn [status_rows In]; eauto 20)) as (r & Hrow).
  split.
  - intros b w' H.
    destruct (find (fun x => N.eqb (IssueBatch.id x) batch_id)
                   (issue_batch (session w))) as [b0|] eqn:Hfind.
    2:{ rewrite (set_batch_status_missing _ _ _ _ Hfind) in H. discriminate. }
    destruct (set_batch_status_run w batch_id "RECEIVED" by_ b0 r Hfind Hrow)
      as (upd & wmid & E & Hbatch & Hupd & Hcm & F1 & F2 & F3 & F4 & _ & _).
    rewrite E in H. clear E.
    change (String.eqb "RECEIVED" "RECEIVED") with true in H. cbn iota in H.
    destruct (issue_batch_cards batch_id by_ wmid) as [[report|e] w1] eqn:Hissue;
      [|discriminate].
    injection H as <- <-.
    assert (Hok1 : catalogue_ok (session wmid) = true)
      by now rewrite (catalogue_ok_ext _ _ F1).
    destruct (issue_batch_cards_returned _ _ _ _ _ Hok1 Hissue)
      as (Hadv & Hset & Hclean & _).
    assert (Hcm1 : committed w1 = session w1).
    { destruct Hclean as [->|Hc]; assumption. }
    destruct (advance_frame _ _ Hadv) as (G1 & G2 & G3 & G4).
    split.
    { destruct (Hupd b0) as (_ & _ & _ & _ & _ & -> & _).
      rewrite Hcm1, (status_code_ext _ _ _ G1), (status_code_ext _ _ _ F1).
      apply filter_status_row in Hrow. destruct Hrow as (Hin & _ & Hcode).
      rewrite <- Hcode. now apply catalogue_code. }
    split.
    { exists wmid, report. auto. }
    intros app_id Hin. rewrite Hcm1 in *.
    apply settled_issued_or_later.
    + eapply advance_cards_in_chain; [exact Hadv|].
      now rewrite (cards_in_chain_ext _ _ F1 F4).
    + apply Hset. unfold batch_applications in *. now rewrite <- G4.
  - intros b0 Hfind Hready.
    now apply (set_batch_status_received_returns w batch_id by_ b0).
Qed.

(** C8. [issue_batch_cards] may be called again: after a call that
    returned, its report counts the batch's applications twice over
    (as applications and as cards) with between none and all of them
    issued in this call, every application of the batch is settled, the
    loop's turn for a settled application returns without a change, and a
    second call, by whatever actor, returns the same counts with
    [cards_issued_now] at 0 and leaves the whole world, every card's
    state included, as it was. *)
Theorem issue_batch_cards_repeatable (w w1 : World) (batch_id : uuid)
    (by_ by2 : option string) (report : IssueReport.t) :
  catalogue_ok (session w) = true ->
  issue_batch_cards batch_id by_ w = (Returned report, w1) ->
  IssueReport.applications report
  = Z.of_nat (List.length (batch_applications (session w) batch_id))
  /\ IssueReport.cards_total report
     = Z.of_nat (List.length (batch_applications (session w) batch_id))
  /\ 0 <= IssueReport.cards_issued_now report
     <= Z.of_nat (List.length (batch_applications (session w) batch_id))
  /\ (forall app_id issued,
        In app_id (batch_applications (session w1) batch_id) ->
        settled (session w1) app_id = true
        /\ issue_one app_id by2 issued w1 = (Returned issued, w1))
  /\ issue_batch_cards batch_id by2 w1
     = (Returned
          (IssueReport.mk
             (Z.of_nat (List.length (batch_applications (session w) batch_id)))
             (Z.of_nat (List.length (batch_applications (session w) batch_id)))
             0),
        w1).
Proof.
  intros Hok H.
  destruct (issue_batch_cards_returned _ _ _ _ _ Hok H)
    as (Hadv & Hset & _ & Ha & Hc & Hi).
  destruct (advance_frame _ _ Hadv) as (_ & _ & _ & G4).
  assert (Hids : batch_applications (session w1) batch_id
                 = batch_applications (session w) batch_id).
  { unfold batch_applications. now rewrite G4. }
  repeat (split; [assumption|]). split.
  - intros app_id issued Hin. rewrite Hids in Hin. specialize (Hset _ Hin).
    split; [assumption|].
    pose proof (issue_loop_settled [app_id] by2 w1) as Hloop.
    cbn [issue_loop] in Hloop.
    assert (Hall : forall x, In x [app_id] -> settled (session w1) x = true).
    { intros x [<-|[]]. exact Hset. }
    specialize (Hloop Hall issued 0). unfold bind in Hloop.
    destruct (issue_one app_id by2 issued w1) as [[i1|e] w2]; [|discriminate].
    cbn in Hloop. now injection Hloop as -> ->.
  - unfold issue_batch_cards. run. fold (batch_applications (session w1) batch_id).
    rewrite Hids.
    rewrite (issue_loop_settled _ by2 w1 Hset 0 0). reflexivity.
Qed.

(* ================================================================= *)
(** * Batches: no transition table *)



(* ================================================================= *)
(** * What a failed call leaves in the store *)



(* ================================================================= *)
(** * Cards: idempotent creation *)

(** C7. [ensure_card_for_application] is idempotent: after a call that
    returned the card [c], a second call, by whatever actor, returns [c]
    again and changes nothing, and [c] is the one card row of the
    application; the first call either found that row and changed nothing
    or, there being none, appended exactly it and committed.  An
    application whose status is not APPROVED or IN_BATCH gets the
    "card can be created only" [ValueError] (the invalid-state error of
    the specification), whether or not it has a card; one that has none
    and is APPROVED or IN_BATCH gets a new card in state CREATED. *)
Theorem ensure_card_idempotent :
  (forall (w w1 : World) (app_id : uuid) (by_ by2 : option string) (c : Card.t),
     ensure_card_for_application app_id by_ w = (Returned c, w1) ->
     ensure_card_for_application app_id by2 w1 = (Returned c, w1)
     /\ cards_of (session w1) app_id = [c]
     /\ ((cards_of (session w) app_id = [c] /\ w1 = w)
         \/ (cards_of (session w) app_id = []
             /\ card (session w1) = (card (session w) ++ [c])%list
             /\ committed w1 = session w1)))
  /\ (forall (w : World) (app_id : uuid) (by_ : option string)
             (a : CardApplication.t) (code : string),
        find (fun r => N.eqb (CardApplication.id r) app_id)
             (card_application (session w)) = Some a ->
        status_code (session w) (CardApplication.status_id a) = Some code ->
        (~ In code ["APPROVED"; "IN_BATCH"] ->
           ensure_card_for_application app_id by_ w
           = (Raised (ValueError
                "Card can be created only for APPROVED/IN_BATCH applications"), w))
        /\ (In code ["APPROVED"; "IN_BATCH"] ->
            catalogue_ok (session w) = true ->
            cards_of (session w) app_id = [] ->
            exists c w',
              ensure_card_for_application app_id by_ w = (Returned c, w')
              /\ Card.application_id c = app_id
              /\ status_code (committed w') (Card.status_id c) = Some "CREATED"
              /\ cards_of (committed w') app_id = [c])).
Proof.
  split.
  - intros w w1 app_id by_ by2 c H.
    destruct (ensure_card_returned _ _ _ _ _ H)
      as (a & code & Hfind & Hcode & Hset & Hcase).
    destruct Hcase as [[Hcards ->] | (Hnone & r & Hrow & Hc)].
    + split; [eapply ensure_card_existing; eauto|].
      split; [assumption|]. now left.
    + destruct (ensure_card_new w app_id by_ a code r Hfind Hcode Hset Hnone Hrow)
        as (w2 & E & Hcard & F1 & F2 & _ & _ & _ & Hcm & _).
      rewrite H in E. injection E as _ <-. subst c.
      assert (Hcards : cards_of (session w1) app_id
                       = [fresh_card w app_id (RefStatus.id r)]).
      { unfold cards_of in *. rewrite Hcard, filter_app, Hnone. cbn.
        now rewrite N.eqb_refl. }
      split.
      * apply (ensure_card_existing w1 app_id by2 a code);
          [ now rewrite F2
          | unfold status_code in *; now rewrite F1
          | exact Hset
          | exact Hcards ].
      * split; [assumption|]. right. auto.
  - intros w app_id by_ a code Hfind Hcode. split.
    + intros Hnot. eapply ensure_card_refused; eauto.
      unfold in_set. cbn [existsb]. rewrite orb_false_r.
      apply orb_false_iff. cbn [In] in Hnot.
      split; apply String.eqb_neq; intros E; apply Hnot; auto.
    + intros Hin Hok Hnone.
      assert (Hset : in_set code ["APPROVED"; "IN_BATCH"] = true).
      { cbn [In] in Hin. destruct Hin as [<-|[<-|[]]]; reflexivity. }
      destruct (catalogue_row _ "card" "CREATED" _ _ Hok
                  ltac:(cbn [status_rows In]; eauto 20)) as (r & Hrow).
      destruct (ensure_card_new w app_id by_ a code r Hfind Hcode Hset Hnone Hrow)
        as (w' & E & Hcard & F1 & _ & _ & _ & _ & Hcm & _).
      exists (fresh_card w app_id (RefStatus.id r)), w'.
      split; [exact E|]. split; [reflexivity|].
      apply filter_status_row in Hrow. destruct Hrow as (Hin_r & _ & Hc).
      rewrite Hcm. split.
      * rewrite (status_code_ext _ _ _ F1). cbn [fresh_card Card.status_id].
        rewrite <- Hc. now apply catalogue_code.
      * unfold cards_of in *. rewrite Hcard, filter_app, Hnone. cbn.
        now rewrite N.eqb_refl.
Qed.

(* ================================================================= *)
(** * Business numbers *)

Lemma create_application_returned (w w' : World) (data : ApplicationCreate.t)
    (by_ : option string) (a : CardApplication.t) :
  create_application data by_ w = (Returned a, w') ->
  CardApplication.application_no a
  = make_no "APP" (Datetime.year (clock w)) (Z.of_N (N.succ (app_seq w))) 6.
Proof.
  unfold create_application. destruct w as [cm ss s1 s2 s3 clk]. run.
  unfold next_seq. eval_eqb. run. unfold get_status_id. run.
  destruct (filter _ _) as [|r [|r' rows]]; cbn [scalar_one]; run;
    try discriminate.
  unfold add_CardApplication. run. intros [= <- _]. reflexivity.
Qed.

Lemma pow10_N (n : Z) (width : nat) :
  0 <= n -> n < 10 ^ Z.of_nat width -> (Z.to_N n < 10 ^ N.of_nat width)%N.
Proof.
  intros Hn H. apply N2Z.inj_lt.
  rewrite N2Z.inj_pow, Z2N.id, nat_N_Z by assumption. exact H.
Qed.

Lemma length_str_N (n : N) (width : nat) :
  (n < 10 ^ N.of_nat width)%N -> (1 <= width)%nat ->
  (length (str_N n) <= width)%nat.
Proof. intros H Hw. now apply length_digits_of. Qed.

(** C9. [make_no] joins the prefix, the year and the zero-padded
    number with dashes.  For a number [n] that is not negative, as every
    sequence value is, the last field is [n] in decimal with zeros put in
    front up to [width] characters: it reads back as [n], is never cut,
    and has exactly [width] digits while [n] is below [10 ^ width].  For a
    negative [n] the minus sign comes first and takes one of the [width]
    characters.  The number of a created application is APP, the year of
    the clock and the next value of the application sequence, six digits
    long up to 999999. *)
Theorem make_no_zero_padded :
  (forall (prefix : string) (year n : Z) (width : nat),
     0 <= n ->
     exists field : string,
       make_no prefix year n width
       = prefix ++ "-" ++ str_int year ++ "-" ++ field
       /\ field = zeros (width - length (str_int n)) ++ str_int n
       /\ read_digits 0 field = Some (Z.to_N n)
       /\ length field = Nat.max width (length (str_int n))
       /\ (n < 10 ^ Z.of_nat width -> (1 <= width)%nat -> length field = width))
  /\ (forall (prefix : string) (year n : Z) (width : nat),
        n < 0 ->
        exists digits : string,
          make_no prefix year n width
          = prefix ++ "-" ++ str_int year ++ "-"
            ++ String "-" (zeros (width - 1 - length digits) ++ digits)
          /\ read_digits 0 digits = Some (Z.to_N (- n)))
  /\ (forall (w w' : World) (data : ApplicationCreate.t) (by_ : option string)
             (a : CardApplication.t),
        create_application data by_ w = (Returned a, w') ->
        exists seq : string,
          CardApplication.application_no a
          = "APP-" ++ str_int (Datetime.year (clock w)) ++ "-" ++ seq
          /\ read_digits 0 seq = Some (N.succ (app_seq w))
          /\ ((app_seq w < 999999)%N -> length seq = 6%nat)).
Proof.
  assert (Hfield : forall (n : Z) (width : nat), 0 <= n ->
            read_digits 0 (format_0d n width) = Some (Z.to_N n)
            /\ length (format_0d n width) = Nat.max width (length (str_int n))
            /\ (n < 10 ^ Z.of_nat width -> (1 <= width)%nat ->
                length (format_0d n width) = width)).
  { intros n width Hn. rewrite (format_0d_nonneg n width Hn).
    rewrite read_digits_zeros, length_append, length_zeros.
    rewrite (str_int_nonneg n Hn). split; [apply read_digits_str_N|].
    split; [lia|]. intros Hlt Hw.
    pose proof (length_str_N _ _ (pow10_N n width Hn Hlt) Hw). lia. }
  split.
  { intros prefix year n width Hn. exists (format_0d n width).
    destruct (Hfield n width Hn) as (H1 & H2 & H3).
    split; [reflexivity|]. split; [now apply format_0d_nonneg|]. auto. }
  split.
  - intros prefix year n width Hn. exists (str_N (Z.abs_N n)).
    split.
    + unfold make_no, format_0d. destruct (Z.ltb_spec n 0); [reflexivity | lia].
    + rewrite read_digits_str_N. f_equal. lia.
  - intros w w' data by_ a H. apply create_application_returned in H.
    exists (format_0d (Z.of_N (N.succ (app_seq w))) 6).
    destruct (Hfield (Z.of_N (N.succ (app_seq w))) 6%nat) as (H1 & _ & H3); [lia|].
    split; [rewrite H; reflexivity|].
    split; [now rewrite H1, N2Z.id|].
    intros Hlt. apply H3; [|lia].
    change (10 ^ Z.of_nat 6) with 1000000. lia.
Qed.

(* ================================================================= *)
(** * The statements at work on the end-to-end run *)

(** Receiving the batch of the run: both applications end with a card
    that is issued. *)
Lemma set_batch_status_received_issues_witness :
  catalogue_ok (session batch_sent) = true
  /\ cards_in_chain (session batch_sent) = true
  /\ exists b w',
       set_batch_status 1 "RECEIVED" None batch_sent = (Returned b, w')
       /\ forall app_id,
            In app_id (batch_applications (committed w') 1) ->
            exists c, cards_of (committed w') app_id = [c]
                      /\ issued_or_later (committed w') c = true.
Proof.
  assert (H1 : catalogue_ok (session batch_sent) = true)
    by (vm_compute; reflexivity).
  assert (H2 : cards_in_chain (session batch_sent) = true)
    by (vm_compute; reflexivity).
  split; [exact H1|]. split; [exact H2|].
  destruct (set_batch_status_received_issues batch_sent 1 None H1 H2) as [HA HB].
  edestruct HB as (b & w' & E); [lazy; reflexivity | vm_compute; reflexivity |].
  exists b, w'. split; [exact E|]. apply (HA b w' E).
Defined.

(** The card of application 1, issued by the run, takes "delivered". *)
Lemma card_event_follows_chain_witness :
  exists c,
    find (fun x => N.eqb (Card.id x) 1) (card (session batch_received)) = Some c
    /\ status_code (session batch_received) (Card.status_id c) = Some "ISSUED"
    /\ exists c' w',
         card_event 1 "delivered" None batch_received = (Returned c', w')
         /\ status_code (committed w') (Card.status_id c') = Some "DELIVERED".
Proof.
  eexists. split; [lazy; reflexivity|].
  assert (H2 : status_code (session batch_received) 10 = Some "ISSUED")
    by (vm_compute; reflexivity).
  split; [exact H2|].
  assert (H1 : catalogue_ok (session batch_received) = true)
    by (vm_compute; reflexivity).
  pose proof (card_event_follows_chain batch_received 1 "delivered" None _ "ISSUED"
                H1 ltac:(lazy; reflexivity) H2) as H.
  cbn [dict_get event_mapping String.eqb Ascii.eqb Bool.eqb] in H.
  destruct H as [H _].
  destruct (H ltac:(vm_compute; reflexivity)) as (c' & w' & E & Hs & _).
  exists c', w'. split; [exact E | exact Hs].
Defined.





(** An approved application gets its card once. *)
Lemma ensure_card_idempotent_witness :
  exists c w1,
    ensure_card_for_application 1 None two_approved = (Returned c, w1)
    /\ ensure_card_for_application 1 (Some "clerk") w1 = (Returned c, w1)
    /\ cards_of (session w1) 1 = [c].
Proof.
  destruct ensure_card_idempotent as [Htwice Hguard].
  edestruct (Hguard two_approved 1%N None) as [_ Hnew];
    [lazy; reflexivity | vm_compute; reflexivity |].
  destruct (Hnew ltac:(cbn; auto) ltac:(vm_compute; reflexivity)
                 ltac:(vm_compute; reflexivity)) as (c & w1 & E & _).
  exists c, w1. split; [exact E|].
  destruct (Htwice _ _ _ _ (Some "clerk") _ E) as (H2 & H3 & _).
  split; [exact H2 | exact H3].
Defined.

(** Issuing the cards of the sent batch, twice. *)
Lemma issue_batch_cards_repeatable_witness :
  catalogue_ok (session batch_sent) = true
  /\ exists report w1,
       issue_batch_cards 1 None batch_sent = (Returned report, w1)
       /\ IssueReport.cards_issued_now report = 2
       /\ issue_batch_cards 1 (Some "System") w1
          = (Returned (IssueReport.mk 2 2 0), w1).
Proof.
  assert (H1 : catalogue_ok (session batch_sent) = true)
    by (vm_compute; reflexivity).
  split; [exact H1|].
  destruct (issue_batch_cards 1 None batch_sent) as [[report|e] w1] eqn:E.
  2:{ vm_compute in E. discriminate. }
  exists report, w1. split; [reflexivity|].
  destruct (issue_batch_cards_repeatable batch_sent w1 1 None (Some "System")
              report H1 E) as (_ & _ & _ & _ & H).
  split; [|exact H].
  vm_compute in E. now injection E as <- _.
Defined.

(** The number of the forty-second application of 2024. *)
Lemma make_no_zero_padded_witness :
  0 <= 42
  /\ make_no "APP" 2024 42 6 = "APP-2024-000042"
  /\ exists field,
       make_no "APP" 2024 42 6 = "APP" ++ "-" ++ str_int 2024 ++ "-" ++ field
       /\ length field = 6%nat.
Proof.
  assert (H : 0 <= 42) by lia.
  split; [exact H|]. split; [vm_compute; reflexivity|].
  destruct make_no_zero_padded as (Hpad & _ & _).
  destruct (Hpad "APP" 2024 42 6%nat H) as (field & E & _ & _ & _ & Hlen).
  exists field. split; [exact E|].
  apply Hlen; [vm_compute; reflexivity | lia].
Defined.

(** The received batch of the run loses its planned sending time and
    keeps its vendor. *)
Lemma update_batch_asymmetric_witness :
  exists b,
    find (fun r => N.eqb (IssueBatch.id r) 1) (issue_batch (session batch_received))
    = Some b
    /\ exists b' w',
         update_batch 1 (BatchUpdate.mk None None) None batch_received
         = (Returned (b', noon), w')
         /\ IssueBatch.vendor_id b' = IssueBatch.vendor_id b
         /\ IssueBatch.planned_send_at b' = None
         /\ IssueBatch.status_id b' = IssueBatch.status_id b.
Proof.
  eexists. split; [lazy; reflexivity|].
  destruct (update_batch_asymmetric batch_received 1 (BatchUpdate.mk None None)
              None _ ltac:(lazy; reflexivity)) as (b' & w' & E & Hb & _).
  exists b', w'. split; [exact E|]. subst b'. repeat split.
Defined.

